(** * codetuner: the AI task workers and the Git manager

    A shallow embedding of the parts of [app.py] (the Tunner Suite:
    [AIWorker], [TunnerSuite.run_ai], [load_to_viewer]) and of [main.py]
    ([GitManager], [PythonDebugger], [LanguageDetector], [ConfigManager],
    [AIProviderFactory], [RefactorWorker], [refactor_code] and the Git
    panel of the IDE) that build prompts, dispatch provider calls, run
    code and drive the [git] command line, followed by the properties
    established for them.

    Conventions of the embedding:
    - a Python [str] is a list of Unicode code points ([list N]);
    - a dict is a [gmap];
    - Qt signals and widget calls that matter to a caller are recorded, in
      order, in an explicit log; external processes and provider SDKs are
      parameters of the model. *)

From Stdlib Require Import NArith ZArith Ascii String List Lia DecimalString.
From stdpp Require Import base option list gmap sorting.

Local Open Scope N_scope.

(** ** Python strings *)

Module PyStr.

(** A character is a code point, a string a sequence of them. *)
Abbreviation char := N (only parsing).
Abbreviation str := (list N) (only parsing).

(** A source literal (ASCII text) as a Python string. *)
Definition lit (s : string) : str := List.map N_of_ascii (list_ascii_of_string s).

(** ["\n"] *)
Definition nl : str := [10].

(** [str.isspace] on one character: the code points CPython's
    [Py_UNICODE_ISSPACE] accepts. *)
Definition isspace (c : char) : bool :=
  ((9 <=? c) && (c <=? 13)) || ((28 <=? c) && (c <=? 32))
  || (c =? 133) || (c =? 160) || (c =? 5760)
  || ((8192 <=? c) && (c <=? 8202))
  || (c =? 8232) || (c =? 8233) || (c =? 8239) || (c =? 8287)
  || (c =? 12288).

(** [s.lstrip()] *)
Fixpoint lstrip (s : str) : str :=
  match s with
  | c :: s' => if isspace c then lstrip s' else s
  | [] => []
  end.

(** [s.rstrip()] *)
Definition rstrip (s : str) : str := rev (lstrip (rev s)).

(** [s.strip()] *)
Definition strip (s : str) : str := rstrip (lstrip s).

(** [s.split(sep)] for a one-character separator: one more piece than
    there are separators, empty pieces kept. *)
Fixpoint split (sep : char) (s : str) : list str :=
  match s with
  | [] => [[]]
  | c :: s' =>
      if c =? sep then [] :: split sep s'
      else match split sep s' with
           | piece :: pieces => (c :: piece) :: pieces
           | [] => [[c]]
           end
  end.

(** [sep.join(pieces)] *)
Fixpoint join (sep : str) (pieces : list str) : str :=
  match pieces with
  | [] => []
  | [p] => p
  | p :: ps => p ++ sep ++ join sep ps
  end.

(** [c.upper()] and [s.upper()] on the ASCII letters, the only ones the
    provider names of this program contain; other characters are kept. *)
Definition upper_char (c : char) : char :=
  if (97 <=? c) && (c <=? 122) then c - 32 else c.
Definition upper (s : str) : str := List.map upper_char s.

(** Truth value of a string: [bool(s)]. *)
Definition truthy (s : str) : bool :=
  match s with [] => false | _ :: _ => true end.

(** Truth value of a value that is a string or [None]. *)
Definition truthy_opt (v : option str) : bool :=
  match v with Some s => truthy s | None => false end.

End PyStr.
Import PyStr.

(** [str(n)] for an integer [n]: its decimal digits, after "-" when it
    is negative. *)
Definition str_of_int (n : Z) : str :=
  lit (NilZero.string_of_int (Z.to_int n)).

(** ** Exceptions and results *)

(** The exceptions the modelled code can meet.  [SDKError] stands for any
    exception raised inside a provider SDK while the client is built or
    the request is sent; it carries the exception's text. *)
Inductive exn :=
| KeyError (key : str)
| IndexError
| AttributeError (msg : str)
| TypeError (msg : str)
| ValueError (msg : str)
| SDKError (msg : str).

(** [str(e)] *)
Definition exn_str (e : exn) : str :=
  match e with
  | KeyError key => lit "'" ++ key ++ lit "'"
  | IndexError => lit "list index out of range"
  | AttributeError msg => msg
  | TypeError msg => msg
  | ValueError msg => msg
  | SDKError msg => msg
  end.

(** A computation that returns a value or raises. *)
Inductive result (A : Type) :=
| Ok (a : A)
| Raise (e : exn).
Arguments Ok {A} a.
Arguments Raise {A} e.

Definition rbind {A B} (r : result A) (k : A -> result B) : result B :=
  match r with
  | Ok a => k a
  | Raise e => Raise e
  end.

Declare Scope py_scope.
Delimit Scope py_scope with py.
Notation "x <- r ;; k" := (rbind r (fun x => k))
  (at level 100, r at next level, right associativity) : py_scope.

(** [d[k]] on a dict. *)
Definition getitem {V} (d : gmap (list N) V) (k : str) : result V :=
  match d !! k with
  | Some v => Ok v
  | None => Raise (KeyError k)
  end.

(** [l[0]] on a list. *)
Definition first {A} (l : list A) : result A :=
  match l with
  | x :: _ => Ok x
  | [] => Raise IndexError
  end.

(** ** Provider SDKs *)

(** One message of a chat conversation: [{"role": ..., "content": ...}]. *)
Record message := { role : str; content : str }.

(** The calls the workers issue.  Credentials are strings or [None]. *)
Inductive request :=
| GenerateContent (api_key : option str) (model : str) (prompt : str)
| ChatCompletionsCreate (api_key : option str) (base_url : option str)
    (model : str) (messages : list message)
| MessagesCreate (api_key : option str) (model : str) (max_tokens : Z)
    (messages : list message).

(** The three SDK families.  Each function stands for building the client
    and performing the call; it answers with what the worker reads from
    the response, or raises. *)
Record sdk := {
  (** [GenerativeModel(model).generate_content(prompt).text] *)
  generate_content : option str -> str -> str -> result str;
  (** [OpenAI(api_key, base_url).chat.completions.create(model, messages)]:
      the [message.content] of each of [choices] *)
  chat_completions_create :
    option str -> option str -> str -> list message -> result (list str);
  (** [Anthropic(api_key).messages.create(model, max_tokens, messages)]:
      the [text] of each block of [content] *)
  messages_create :
    option str -> str -> Z -> list message -> result (list str)
}.

(** What a worker thread does that others can see: the requests it sends
    and the signals it emits. *)
Inductive event :=
| Call (r : request)
| Finished (text : str)
| Error (msg : str).

(** The signals among the events. *)
Definition is_finished (e : event) : bool :=
  match e with Finished _ => true | _ => false end.
Definition is_error (e : event) : bool :=
  match e with Error _ => true | _ => false end.
Definition is_call (e : event) : bool :=
  match e with Call _ => true | _ => false end.

(** The body of a worker's [try] block: it logs the requests it sends and
    ends with a value or with the exception that left the block. *)
Definition W (A : Type) : Type := (list request * result A)%type.

Definition wret {A} (a : A) : W A := ([], Ok a).

Definition wbind {A B} (m : W A) (k : A -> W B) : W B :=
  match m with
  | (sent, Ok a) => let '(sent', r) := k a in (sent ++ sent', r)
  | (sent, Raise e) => (sent, Raise e)
  end.

Definition lift {A} (r : result A) : W A := ([], r).

Definition send {A} (rq : request) (answer : result A) : W A := ([rq], answer).

Notation "x <~ m ;; k" := (wbind m (fun x => k))
  (at level 100, m at next level, right associativity) : py_scope.

(** [try: ... self.finished.emit(text) except Exception as e:
    self.error.emit(str(e))] around a body. *)
Definition try_emit (body : W str) : list event :=
  match body with
  | (sent, Ok text) => List.map Call sent ++ [Finished text]
  | (sent, Raise e) => List.map Call sent ++ [Error (exn_str e)]
  end.

Local Open Scope py_scope.

(** ** app.py: the Tunner Suite *)

Module App.

(** An entry of [MODELS_CONFIG]. *)
Record model_info := { provider : str; model_id : str }.

Definition MODELS_CONFIG : gmap (list N) model_info :=
  list_to_map
    [ (lit "Google: Gemini 2.5 Flash",
        {| provider := lit "gemini"; model_id := lit "gemini-2.5-flash" |});
      (lit "Google: Gemini 3 Pro",
        {| provider := lit "gemini"; model_id := lit "gemini-3-pro-preview" |});
      (lit "OpenAI: GPT-5.1",
        {| provider := lit "openai"; model_id := lit "gpt-5.1" |});
      (lit "OpenAI: GPT-4o",
        {| provider := lit "openai"; model_id := lit "gpt-4o" |});
      (lit "Anthropic: Claude 3.5 Sonnet",
        {| provider := lit "anthropic";
           model_id := lit "claude-3-5-sonnet-20241022" |});
      (lit "DeepSeek: V3",
        {| provider := lit "deepseek"; model_id := lit "deepseek-chat" |});
      (lit "Perplexity: Sonar Large",
        {| provider := lit "perplexity";
           model_id := lit "sonar-reasoning-pro" |}) ].

(** *** AIWorker *)

(** The fields [AIWorker.__init__] stores. *)
Record AIWorker := {
  w_mode : str;
  w_provider : str;
  w_model_id : str;
  w_content : str;
  w_instruction : str;
  w_api_keys : gmap (list N) (option (list N))
}.

Definition AIWorker_init (mode : str) (info : model_info)
    (content instruction : str)
    (api_keys : gmap (list N) (option (list N))) : AIWorker :=
  {| w_mode := mode;
     w_provider := provider info;
     w_model_id := model_id info;
     w_content := content;
     w_instruction := instruction;
     w_api_keys := api_keys |}.

(** The indentation of the lines of the triple-quoted template. *)
Definition indent : str := lit "            ".

Definition sys_prompt (self : AIWorker) : str :=
  if decide (w_mode self = lit "code")
  then lit "You are an Expert Software Architect."
  else lit "You are an Expert Professor and Tutor.".

Definition user_prompt (self : AIWorker) : str :=
  if decide (w_mode self = lit "code")
  then
    lit "Instruction: " ++ w_instruction self ++ nl ++ nl
      ++ lit "Code Context:" ++ nl
      ++ take (N.to_nat 20000) (w_content self)
  else
    nl ++ indent ++ lit "Instruction: " ++ w_instruction self ++ nl
      ++ nl
      ++ indent ++ lit "Source Material (Lecture/Notes):" ++ nl
      ++ indent ++ take (N.to_nat 30000) (w_content self) ++ nl
      ++ nl
      ++ indent
      ++ lit "Task: Explain clearly, summarize key points, or create a quiz as requested."
      ++ nl
      ++ indent ++ lit "Output: Markdown formatted." ++ nl
      ++ indent.

Definition full_prompt (self : AIWorker) : str :=
  sys_prompt self ++ nl ++ nl ++ user_prompt self.

Definition base_urls : gmap (list N) (option (list N)) :=
  list_to_map
    [ (lit "openai", None);
      (lit "deepseek", Some (lit "https://api.deepseek.com"));
      (lit "perplexity", Some (lit "https://api.perplexity.ai")) ].

Definition user_message (text : str) : message :=
  {| role := lit "user"; content := text |}.

(** The statements inside [try] in [AIWorker.run], up to the value of
    [response_text]. *)
Definition response_text (s : sdk) (self : AIWorker) : W str :=
  if decide (w_provider self = lit "gemini") then
    key <~ lift (getitem (w_api_keys self) (lit "gemini"));;
    send (GenerateContent key (w_model_id self) (full_prompt self))
         (generate_content s key (w_model_id self) (full_prompt self))
  else if decide (w_provider self ∈
                    [lit "openai"; lit "deepseek"; lit "perplexity"]) then
    key <~ lift (getitem (w_api_keys self) (w_provider self));;
    url <~ lift (getitem base_urls (w_provider self));;
    choices <~ send (ChatCompletionsCreate key url (w_model_id self)
                       [user_message (full_prompt self)])
                    (chat_completions_create s key url (w_model_id self)
                       [user_message (full_prompt self)]);;
    lift (first choices)
  else if decide (w_provider self = lit "anthropic") then
    key <~ lift (getitem (w_api_keys self) (lit "anthropic"));;
    blocks <~ send (MessagesCreate key (w_model_id self) 4096
                      [user_message (full_prompt self)])
                   (messages_create s key (w_model_id self) 4096
                      [user_message (full_prompt self)]);;
    lift (first blocks)
  else wret [].

(** [AIWorker.run]: the events of the worker thread. *)
Definition run (s : sdk) (self : AIWorker) : list event :=
  try_emit (response_text s self).

(** *** TunnerSuite *)

(** What the window does besides changing its own fields. *)
Inductive ui_event :=
| warning (title text : str)       (* QMessageBox.warning *)
| critical (title text : str)      (* QMessageBox.critical *)
| open_settings                    (* the API-keys dialog *)
| start (w : AIWorker).            (* QThread.start *)

(** The fields and widgets of the window that [run_ai] and the
    handlers of the worker's signals read or write. *)
Record TunnerSuite := {
  current_mode : str;
  (** text of [code_tabs.currentWidget()]; [None] without a tab *)
  code_tabs_currentWidget : option (list N);
  doc_viewer : str;
  ai_input : str;
  model_box_currentText : str;
  progress_visible : bool;
  btn_run_enabled : bool;
  status_message : str;
  ai_output : str;
  worker : option AIWorker
}.

Definition providers : list str :=
  [lit "gemini"; lit "openai"; lit "anthropic"; lit "deepseek";
   lit "perplexity"].

(** [get_keys]: the stored setting if it is not empty, the environment
    variable otherwise.  [settings] is the store of
    [QSettings("SPU", "Ultimate")], [environ] the process environment. *)
Definition get_keys (settings environ : gmap (list N) (list N))
    : gmap (list N) (option (list N)) :=
  foldl
    (fun k p =>
       let v := default [] (settings !! (p ++ lit "_key")) in
       let v := if truthy v then Some v
                else environ !! (upper p ++ lit "_API_KEY") in
       <[p := v]> k)
    ∅ providers.

(** [run_ai], the slot of the run button. *)
Definition run_ai (settings environ : gmap (list N) (list N))
    (self : TunnerSuite) : result (TunnerSuite * list ui_event) :=
  let instruction := ai_input self in
  content <-
    (if decide (current_mode self = lit "code") then
       match code_tabs_currentWidget self with
       | Some text => Ok text
       | None =>
           Raise (AttributeError
             (lit "'NoneType' object has no attribute 'toPlainText'"))
       end
     else Ok (doc_viewer self));;
  if negb (truthy (strip content)) then
    Ok (self, [warning (lit "Empty") (lit "Please select a file first.")])
  else
    info <- getitem MODELS_CONFIG (model_box_currentText self);;
    let keys := get_keys settings environ in
    if negb (truthy_opt (mjoin (keys !! provider info))) then
      Ok (self, [open_settings])
    else
      let w :=
        AIWorker_init (current_mode self) info content instruction keys in
      Ok ({| current_mode := current_mode self;
             code_tabs_currentWidget := code_tabs_currentWidget self;
             doc_viewer := doc_viewer self;
             ai_input := ai_input self;
             model_box_currentText := model_box_currentText self;
             progress_visible := true;
             btn_run_enabled := false;
             status_message :=
               lit "AI Working in " ++ upper (current_mode self)
                 ++ lit " mode...";
             ai_output := ai_output self;
             worker := Some w |},
          [start w]).

(** [on_ai_finished], connected to [worker.finished]. *)
Definition on_ai_finished (text : str) (self : TunnerSuite) : TunnerSuite :=
  {| current_mode := current_mode self;
     code_tabs_currentWidget := code_tabs_currentWidget self;
     doc_viewer := doc_viewer self;
     ai_input := ai_input self;
     model_box_currentText := model_box_currentText self;
     progress_visible := false;
     btn_run_enabled := true;
     status_message := lit "Done.";
     ai_output := text;
     worker := worker self |}.

(** The slot a signal of the worker reaches: [on_ai_finished] for
    [finished], the lambda showing [QMessageBox.critical] for [error]. *)
Definition deliver (e : event) (self : TunnerSuite)
    : TunnerSuite * list ui_event :=
  match e with
  | Finished text => (on_ai_finished text self, [])
  | Error msg => (self, [critical (lit "Error") msg])
  | Call _ => (self, [])
  end.

(** The signals of a finished worker thread, delivered in order. *)
Definition deliver_all (es : list event) (self : TunnerSuite)
    : TunnerSuite * list ui_event :=
  foldl (fun '(win, shown) e =>
           let '(win', shown') := deliver e win in (win', shown ++ shown'))
        (self, []) es.

(** One click on the run button, followed to the end of the worker it
    starts: the window afterwards, what the window showed or started,
    and the events of the worker thread.  A disabled button does not
    call its slot. *)
Definition click_run (s : sdk) (settings environ : gmap (list N) (list N))
    (self : TunnerSuite)
    : result (TunnerSuite * list ui_event * list event) :=
  if btn_run_enabled self then
    outcome <- run_ai settings environ self;;
    let '(win, shown) := outcome in
    match shown with
    | [start w] =>
        let es := run s w in
        let '(win', shown') := deliver_all es win in
        Ok (win', shown ++ shown', es)
    | _ => Ok (win, shown, [])
    end
  else Ok (self, [], []).

End App.

(** ** main.py: GenAI Studio *)

Module Studio.

(** *** ConfigManager and AIProviderFactory *)

(** [ConfigManager.get_key]: the environment variable if it is set and
    not empty, the stored setting otherwise.  [settings] is the store of
    [QSettings("GenAI_Studio", "SecureKeys")]. *)
Definition get_key (settings environ : gmap (list N) (list N))
    (provider_type : str) : str :=
  let key := environ !! (upper provider_type ++ lit "_API_KEY") in
  if negb (truthy_opt key) then default [] (settings !! provider_type)
  else default [] key.

(** An entry of [AIProviderFactory.MODELS]. *)
Record conf := { type : str; model : str }.

Definition MODELS : gmap (list N) conf :=
  list_to_map
    [ (lit "Gemini 2.0 Flash",
        {| type := lit "gemini"; model := lit "gemini-2.0-flash-exp" |});
      (lit "GPT-4o", {| type := lit "openai"; model := lit "gpt-4o" |});
      (lit "Claude 3.5 Sonnet",
        {| type := lit "anthropic";
           model := lit "claude-3-5-sonnet-latest" |}) ].

(** The client objects [create] returns. *)
Inductive backend :=
| GenerativeModel (api_key : str) (model_name : str)
| OpenAI (api_key : str)
| Anthropic (api_key : str).

(** [AIProviderFactory.create]; it returns [None] for a type that is
    none of the three. *)
Definition create (settings environ : gmap (list N) (list N))
    (config_name : str) : result (option backend) :=
  match MODELS !! config_name with
  | None => Raise (ValueError (lit "Model Not Found"))
  | Some c =>
      let p_type := type c in
      let api_key := get_key settings environ p_type in
      if negb (truthy api_key) then
        Raise (ValueError (lit "Missing API Key for " ++ p_type))
      else if decide (p_type = lit "gemini") then
        Ok (Some (GenerativeModel api_key (model c)))
      else if decide (p_type = lit "openai") then
        Ok (Some (OpenAI api_key))
      else if decide (p_type = lit "anthropic") then
        Ok (Some (Anthropic api_key))
      else Ok None
  end.

(** *** RefactorWorker *)

Record RefactorWorker := {
  model_name : str;
  code : str;
  lang : str
}.

Definition fence : str := lit "```".

Definition prompt (self : RefactorWorker) : str :=
  lit "Refactor this " ++ lang self ++ lit " code:" ++ nl
    ++ nl
    ++ fence ++ lang self ++ nl
    ++ code self ++ nl
    ++ fence ++ nl
    ++ nl
    ++ lit "Provide:" ++ nl
    ++ lit "1. Summary" ++ nl
    ++ lit "2. Complete refactored code" ++ nl
    ++ lit "3. Key improvements".

Definition user_message (text : str) : message :=
  {| role := lit "user"; content := text |}.

(** A method of a client object the object does not have. *)
Definition no_attribute (name : string) : exn :=
  AttributeError (lit "object has no attribute '" ++ lit name ++ lit "'").

(** The statements inside [try] in [RefactorWorker.run]: the text given
    to [finished.emit], or [None] when no branch is taken. *)
Definition emitted_text (s : sdk)
    (settings environ : gmap (list N) (list N)) (self : RefactorWorker)
    : W (option (list N)) :=
  backend <~ lift (create settings environ (model_name self));;
  match MODELS !! model_name self with
  | None => lift (Raise (TypeError
              (lit "'NoneType' object is not subscriptable")))
  | Some c =>
      if decide (type c = lit "gemini") then
        match backend with
        | Some (GenerativeModel key m) =>
            text <~ send (GenerateContent (Some key) m (prompt self))
                      (generate_content s (Some key) m (prompt self));;
            wret (Some text)
        | _ => lift (Raise (no_attribute "generate_content"))
        end
      else if decide (type c = lit "openai") then
        match backend with
        | Some (OpenAI key) =>
            choices <~ send (ChatCompletionsCreate (Some key) None (model c)
                               [user_message (prompt self)])
                         (chat_completions_create s (Some key) None
                            (model c) [user_message (prompt self)]);;
            text <~ lift (first choices);;
            wret (Some text)
        | _ => lift (Raise (no_attribute "chat"))
        end
      else if decide (type c = lit "anthropic") then
        match backend with
        | Some (Anthropic key) =>
            blocks <~ send (MessagesCreate (Some key) (model c) 8192
                              [user_message (prompt self)])
                        (messages_create s (Some key) (model c) 8192
                           [user_message (prompt self)]);;
            text <~ lift (first blocks);;
            wret (Some text)
        | _ => lift (Raise (no_attribute "messages"))
        end
      else wret None
  end.

(** [RefactorWorker.run]: the events of the worker thread. *)
Definition run (s : sdk) (settings environ : gmap (list N) (list N))
    (self : RefactorWorker) : list event :=
  match emitted_text s settings environ self with
  | (sent, Ok (Some text)) => List.map Call sent ++ [Finished text]
  | (sent, Ok None) => List.map Call sent
  | (sent, Raise e) => List.map Call sent ++ [Error (exn_str e)]
  end.

(** *** FullFeatureIDE: the refactor button *)

Inductive ui_event :=
| critical (title text : str)      (* QMessageBox.critical *)
| start (w : RefactorWorker).      (* QThread.start *)

(** The widgets of the window that [refactor_code] and the handlers of
    the worker's signals read or write. *)
Record FullFeatureIDE := {
  editor : str;
  model_combo_currentText : str;
  lang_combo_currentText : str;
  btn_refactor_enabled : bool;
  btn_refactor_text : str;
  status_label : str;
  (** the texts of the result tabs added to [editor_tabs] *)
  result_tabs : list (list N);
  worker : option RefactorWorker
}.

(** The decorations the labels start with, as the file spells them. *)
Definition mark_failed : str := [226; 338].
Definition mark_busy : str := [226; 179].
Definition mark_refactor : str := [226; 339; 168].
Definition mark_done : str := [226; 339; 8230].

(** [refactor_code], the slot of the refactor button. *)
Definition refactor_code (self : FullFeatureIDE)
    : FullFeatureIDE * list ui_event :=
  let code := strip (editor self) in
  if negb (truthy code) then
    ({| editor := editor self;
        model_combo_currentText := model_combo_currentText self;
        lang_combo_currentText := lang_combo_currentText self;
        btn_refactor_enabled := btn_refactor_enabled self;
        btn_refactor_text := btn_refactor_text self;
        status_label := mark_failed ++ lit " No code to refactor";
        result_tabs := result_tabs self;
        worker := worker self |}, [])
  else
    let w := {| model_name := model_combo_currentText self;
                code := code;
                lang := lang_combo_currentText self |} in
    ({| editor := editor self;
        model_combo_currentText := model_combo_currentText self;
        lang_combo_currentText := lang_combo_currentText self;
        btn_refactor_enabled := false;
        btn_refactor_text := mark_busy ++ lit " Processing...";
        status_label := status_label self;
        result_tabs := result_tabs self;
        worker := Some w |}, [start w]).

Definition on_refactor_success (result : str) (self : FullFeatureIDE)
    : FullFeatureIDE :=
  {| editor := editor self;
     model_combo_currentText := model_combo_currentText self;
     lang_combo_currentText := lang_combo_currentText self;
     btn_refactor_enabled := true;
     btn_refactor_text := mark_refactor ++ lit " Refactor";
     status_label := mark_done ++ lit " Refactoring complete!";
     result_tabs := result_tabs self ++ [result];
     worker := worker self |}.

Definition on_refactor_error (error : str) (self : FullFeatureIDE)
    : FullFeatureIDE * list ui_event :=
  ({| editor := editor self;
      model_combo_currentText := model_combo_currentText self;
      lang_combo_currentText := lang_combo_currentText self;
      btn_refactor_enabled := true;
      btn_refactor_text := mark_refactor ++ lit " Refactor";
      status_label := mark_failed ++ lit " Error: " ++ error;
      result_tabs := result_tabs self;
      worker := worker self |},
   [critical (lit "Error") error]).

(** The slot a signal of the worker reaches. *)
Definition deliver (e : event) (self : FullFeatureIDE)
    : FullFeatureIDE * list ui_event :=
  match e with
  | Finished text => (on_refactor_success text self, [])
  | Error msg => on_refactor_error msg self
  | Call _ => (self, [])
  end.

Definition deliver_all (es : list event) (self : FullFeatureIDE)
    : FullFeatureIDE * list ui_event :=
  foldl (fun '(win, shown) e =>
           let '(win', shown') := deliver e win in (win', shown ++ shown'))
        (self, []) es.

(** One click on the refactor button, followed to the end of the worker
    it starts.  A disabled button does not call its slot. *)
Definition click_refactor (s : sdk)
    (settings environ : gmap (list N) (list N)) (self : FullFeatureIDE)
    : FullFeatureIDE * list ui_event * list event :=
  if btn_refactor_enabled self then
    let '(win, shown) := refactor_code self in
    match shown with
    | [start w] =>
        let es := run s settings environ w in
        let '(win', shown') := deliver_all es win in
        (win', shown ++ shown', es)
    | _ => (win, shown, [])
    end
  else (self, [], []).

End Studio.

Declare Scope git_scope.

(** ** main.py: GitManager *)

Module Git.

(** How [subprocess.run(..., capture_output=True, text=True)] ends: the
    process exits, or the call raises (the program cannot be started,
    the timeout expires); [Raised] carries [str(e)]. *)
Inductive run_outcome :=
| Completed (returncode : Z) (stdout stderr : str)
| Raised (msg : str).

(** What a method of the manager does that others can see: the
    processes it starts and the signals it emits. *)
Inductive event :=
| spawn (argv : list (list N)) (cwd : str) (timeout : Z)
| status_updated (status : gmap (list N) (list (list N)))
| output_ready (text : str)
| error_occurred (text : str).

Definition is_spawn (e : event) : bool :=
  match e with spawn _ _ _ => true | _ => false end.
Definition is_status_updated (e : event) : bool :=
  match e with status_updated _ => true | _ => false end.

(** The manager's only field. *)
Record GitManager := { repo_path : option (list N) }.

Definition set_repo_path (path : option (list N)) (self : GitManager)
    : GitManager :=
  {| repo_path := path |}.

Section Manager.

(** Everything outside the program that a [git] process reads or
    changes, and the effect of running a command line in a directory
    with a timeout. *)
Variable world : Type.
Variable subprocess_run :
  list (list N) -> list N -> Z -> world -> run_outcome * world.

(** A method: from the outside world and the events so far to a
    returned value, the world and the events afterwards. *)
Definition M (A : Type) : Type :=
  world * list event -> A * (world * list event).

Definition ret {A} (a : A) : M A := fun s => (a, s).

Definition bind {A B} (m : M A) (k : A -> M B) : M B :=
  fun s => let '(a, s') := m s in k a s'.

Definition emit (e : event) : M unit :=
  fun '(w, log) => (tt, (w, log ++ [e])).

(** Start the process (recorded) and wait for its end. *)
Definition subprocess (argv : list (list N)) (cwd : str) (timeout : Z)
    : M run_outcome :=
  fun '(w, log) =>
    let '(r, w') := subprocess_run argv cwd timeout w in
    (r, (w', log ++ [spawn argv cwd timeout])).

Notation "x <- m ;; k" := (bind m (fun x => k))
  (at level 100, m at next level, right associativity) : git_scope.
Local Open Scope git_scope.

(** [run_git_command]: the standard output of [git args], or [None]. *)
Definition run_git_command (self : GitManager) (args : list (list N))
    : M (option (list N)) :=
  if negb (truthy_opt (repo_path self)) then
    _ <- emit (error_occurred (lit "No repository path set"));;
    ret None
  else
    result <- subprocess (lit "git" :: args)
                (default [] (repo_path self)) 30;;
    match result with
    | Completed returncode stdout stderr =>
        if (returncode =? 0)%Z then ret (Some stdout)
        else _ <- emit (error_occurred stderr);; ret None
    | Raised msg =>
        _ <- emit (error_occurred msg);; ret None
    end.

(** [status[key].append(filepath)] *)
Definition append_to (key filepath : str)
    (status : gmap (list N) (list (list N)))
    : gmap (list N) (list (list N)) :=
  alter (fun paths => paths ++ [filepath]) key status.

(** The body of the loop of [get_status] for one line. *)
Definition get_status_line (status : gmap (list N) (list (list N)))
    (line : str) : gmap (list N) (list (list N)) :=
  if negb (truthy line) then status
  else
    let status_code := take 2 line in
    let filepath := drop 3 line in
    if decide (status_code = lit " M" \/ status_code = lit "M ") then
      append_to (lit "modified") filepath status
    else if decide (status_code = lit "A ") then
      append_to (lit "added") filepath status
    else if decide (status_code = lit "D ") then
      append_to (lit "deleted") filepath status
    else if decide (status_code = lit "??") then
      append_to (lit "untracked") filepath status
    else status.

(** The dict [get_status] starts from. *)
Definition empty_status : gmap (list N) (list (list N)) :=
  list_to_map
    [ (lit "modified", []); (lit "added", []); (lit "deleted", []);
      (lit "untracked", []) ].

(** [get_status] *)
Definition get_status (self : GitManager)
    : M (gmap (list N) (list (list N))) :=
  output <- run_git_command self [lit "status"; lit "--porcelain"];;
  match output with
  | None => ret ∅
  | Some output =>
      let status :=
        foldl get_status_line empty_status (split 10 (strip output)) in
      _ <- emit (status_updated status);;
      ret status
  end.

(** [get_branch] *)
Definition get_branch (self : GitManager) : M (list N) :=
  output <- run_git_command self [lit "branch"; lit "--show-current"];;
  ret (match output with
       | Some output =>
           if truthy output then strip output else lit "unknown"
       | None => lit "unknown"
       end).

(** [add_files], called with a list of paths. *)
Definition add_files (self : GitManager) (files : list (list N))
    : M unit :=
  output <- run_git_command self (lit "add" :: files);;
  match output with
  | Some _ =>
      _ <- emit (output_ready
                   (lit "Added files: " ++ join (lit ", ") files));;
      _ <- get_status self;;
      ret tt
  | None => ret tt
  end.

(** [commit] *)
Definition commit (self : GitManager) (message : str) : M unit :=
  output <- run_git_command self [lit "commit"; lit "-m"; message];;
  match output with
  | Some _ =>
      _ <- emit (output_ready (lit "Committed: " ++ message));;
      _ <- get_status self;;
      ret tt
  | None => ret tt
  end.

(** [push(remote='origin', branch=None)]: an argument that is not
    supplied is [None] here. *)
Definition push (self : GitManager) (remote branch : option (list N))
    : M unit :=
  let remote := default (lit "origin") remote in
  branch <- match branch with
            | None => get_branch self
            | Some b => ret b
            end;;
  output <- run_git_command self [lit "push"; remote; branch];;
  match output with
  | Some _ =>
      emit (output_ready
              (lit "Pushed to " ++ remote ++ lit "/" ++ branch))
  | None => ret tt
  end.

(** [pull(remote='origin', branch=None)] *)
Definition pull (self : GitManager) (remote branch : option (list N))
    : M unit :=
  let remote := default (lit "origin") remote in
  branch <- match branch with
            | None => get_branch self
            | Some b => ret b
            end;;
  output <- run_git_command self [lit "pull"; remote; branch];;
  match output with
  | Some _ =>
      _ <- emit (output_ready
                   (lit "Pulled from " ++ remote ++ lit "/" ++ branch));;
      _ <- get_status self;;
      ret tt
  | None => ret tt
  end.

(** [get_diff(filepath=None)] *)
Definition get_diff (self : GitManager) (filepath : option (list N))
    : M (option (list N)) :=
  let args :=
    if truthy_opt filepath then [lit "diff"; default [] filepath]
    else [lit "diff"] in
  run_git_command self args.

(** [get_log(count=10)] *)
Definition get_log (self : GitManager) (count : Z) : M (list N) :=
  output <- run_git_command self
              [lit "log"; lit "-" ++ str_of_int count; lit "--oneline"];;
  ret (if truthy_opt output then default [] output else []).

End Manager.

End Git.

(** ** main.py: PythonDebugger *)

Module Debugger.

(** What the debugger does that others can see: the temporary files it
    writes, the processes it starts and the signals it emits. *)
Inductive event :=
| written (path text : str)
| started (program : str) (arguments : list (list N))
| output_ready (text : str)
| error_occurred (text : str).

(** The fields: the line numbers with a breakpoint, and the program and
    arguments of the last process started, if any. *)
Record PythonDebugger := {
  breakpoints : gset Z;
  process : option (list N * list (list N))
}.

Definition add_breakpoint (line : Z) (self : PythonDebugger)
    : PythonDebugger * list event :=
  ({| breakpoints := {[ line ]} ∪ breakpoints self;
      process := process self |},
   [output_ready (lit "Breakpoint added at line " ++ str_of_int line)]).

Definition remove_breakpoint (line : Z) (self : PythonDebugger)
    : PythonDebugger * list event :=
  ({| breakpoints := breakpoints self ∖ {[ line ]};
      process := process self |},
   [output_ready (lit "Breakpoint removed from line " ++ str_of_int line)]).

Definition clear_breakpoints (self : PythonDebugger)
    : PythonDebugger * list event :=
  ({| breakpoints := ∅; process := process self |},
   [output_ready (lit "All breakpoints cleared")]).

(** The statement a breakpoint becomes. *)
Definition trace_line : str := lit "import pdb; pdb.set_trace()".

(** [lines.insert(i, x)] for an index that is not negative. *)
Definition insert_at {A} (i : nat) (x : A) (l : list A) : list A :=
  take i l ++ x :: drop i l.

(** The body of the loop of [debug_code] for one breakpoint. *)
Definition insert_breakpoint (lines : list (list N)) (bp : Z)
    : list (list N) :=
  if ((0 <? bp) && (bp <=? Z.of_nat (length lines)))%Z
  then insert_at (Z.to_nat (bp - 1)) trace_line lines
  else lines.

(** [sorted(breakpoints, reverse=True)] *)
Definition sorted_reverse (breakpoints : gset Z) : list Z :=
  merge_sort Z.ge (elements breakpoints).

(** The text [debug_code] runs: the code with a trace line inserted for
    the breakpoints, from the last one to the first. *)
Definition code_with_bp (breakpoints : gset Z) (code : str) : str :=
  join nl (foldl insert_breakpoint (split 10 code)
             (sorted_reverse breakpoints)).

Section Run.

(** The file system, and [NamedTemporaryFile(mode='w', suffix='.py',
    delete=False)] followed by the write of a text: the name of the file,
    or the exception that leaves the [with] block. *)
Variable world : Type.
Variable temporary_file : str -> world -> result (list N) * world.

(** [run_code(code, filepath=None)] *)
Definition run_code (code : str) (filepath : option (list N))
    (self : PythonDebugger) (w : world)
    : PythonDebugger * world * list event :=
  let '(named, w', files) :=
    match filepath with
    | Some path => (Ok path, w, [])
    | None =>
        let '(r, w') := temporary_file code w in
        (r, w', match r with Ok path => [written path code] | Raise _ => [] end)
    end in
  match named with
  | Ok path =>
      ({| breakpoints := breakpoints self;
          process := Some (lit "python3", [path]) |},
       w',
       files ++ [started (lit "python3") [path];
                 output_ready (lit "Running " ++ path ++ lit "...")])
  | Raise e =>
      (self, w',
       files ++ [error_occurred (lit "Failed to run code: " ++ exn_str e)])
  end.

(** [debug_code(code, filepath=None)] *)
Definition debug_code (code : str) (filepath : option (list N))
    (self : PythonDebugger) (w : world)
    : PythonDebugger * world * list event :=
  let text := code_with_bp (breakpoints self) code in
  let '(named, w', files) :=
    match filepath with
    | Some path => (Ok path, w, [])
    | None =>
        let '(r, w') := temporary_file text w in
        (r, w', match r with Ok path => [written path text] | Raise _ => [] end)
    end in
  match named with
  | Ok path =>
      let '(self', w'', es) := run_code text (Some path) self w' in
      (self', w'',
       files ++ output_ready (lit "Debugging " ++ path ++ lit "...") :: es)
  | Raise e =>
      (self, w',
       files ++ [error_occurred (lit "Failed to debug: " ++ exn_str e)])
  end.

End Run.

End Debugger.

(** ** main.py: LanguageDetector *)

Module LanguageDetector.

(** An entry of [LANGUAGES]: the extensions and the lexer of a language. *)
Record info := { exts : list (list N); lexer : str }.

(** [LANGUAGES], in the order of the source, which is the order in which
    [detect] goes through it. *)
Definition LANGUAGES : list (list N * info) :=
  [ (lit "Python", {| exts := [lit ".py"]; lexer := lit "python" |});
    (lit "JavaScript",
      {| exts := [lit ".js"; lit ".jsx"]; lexer := lit "javascript" |});
    (lit "TypeScript",
      {| exts := [lit ".ts"; lit ".tsx"]; lexer := lit "typescript" |});
    (lit "HTML", {| exts := [lit ".html"]; lexer := lit "html" |});
    (lit "CSS", {| exts := [lit ".css"]; lexer := lit "css" |});
    (lit "Rust", {| exts := [lit ".rs"]; lexer := lit "rust" |});
    (lit "Go", {| exts := [lit ".go"]; lexer := lit "go" |});
    (lit "Swift", {| exts := [lit ".swift"]; lexer := lit "swift" |});
    (lit "Dart", {| exts := [lit ".dart"]; lexer := lit "dart" |}) ].

(** The loop of [detect] over the entries that are left. *)
Fixpoint detect_in (table : list (list N * info)) (ext : str) : str :=
  match table with
  | [] => lit "Text"
  | (lang, i) :: table' =>
      if decide (ext ∈ exts i) then lang else detect_in table' ext
  end.

Section Detect.

(** [os.path.splitext(filename)[1].lower()], the work of the standard
    library in [detect]. *)
Variable lower_ext : str -> str.

(** [detect] *)
Definition detect (filename : str) : str :=
  detect_in LANGUAGES (lower_ext filename).

End Detect.

(** [LANGUAGES.get(lang, {})] followed by [.get("lexer", "text")] *)
Fixpoint lexer_in (table : list (list N * info)) (lang : str) : str :=
  match table with
  | [] => lit "text"
  | (l, i) :: table' =>
      if decide (l = lang) then lexer i else lexer_in table' lang
  end.

(** [get_lexer_name] *)
Definition get_lexer_name (lang : str) : str := lexer_in LANGUAGES lang.

End LanguageDetector.

(** ** app.py: opening files in the Tunner Suite *)

Module Viewer.
Import App.

(** A tab of [code_tabs]: its title, the text of its editor and its tool
    tip, which holds the path of the file (the empty string when none was
    set). *)
Record tab := { tabText : str; text : str; tabToolTip : str }.

(** The window with the tabs of [code_tabs] and the index of the current
    one.  The field [code_tabs_currentWidget] of the window is the text of
    the current tab. *)
Record Workbench := {
  suite : TunnerSuite;
  code_tabs : list tab;
  currentIndex : nat
}.

Definition set_mode (mode : str) (self : TunnerSuite) : TunnerSuite :=
  {| current_mode := mode;
     code_tabs_currentWidget := code_tabs_currentWidget self;
     doc_viewer := doc_viewer self;
     ai_input := ai_input self;
     model_box_currentText := model_box_currentText self;
     progress_visible := progress_visible self;
     btn_run_enabled := btn_run_enabled self;
     status_message := status_message self;
     ai_output := ai_output self;
     worker := worker self |}.

Definition set_doc_viewer (doc : str) (self : TunnerSuite) : TunnerSuite :=
  {| current_mode := current_mode self;
     code_tabs_currentWidget := code_tabs_currentWidget self;
     doc_viewer := doc;
     ai_input := ai_input self;
     model_box_currentText := model_box_currentText self;
     progress_visible := progress_visible self;
     btn_run_enabled := btn_run_enabled self;
     status_message := status_message self;
     ai_output := ai_output self;
     worker := worker self |}.

Definition set_currentWidget (widget : option (list N)) (self : TunnerSuite)
    : TunnerSuite :=
  {| current_mode := current_mode self;
     code_tabs_currentWidget := widget;
     doc_viewer := doc_viewer self;
     ai_input := ai_input self;
     model_box_currentText := model_box_currentText self;
     progress_visible := progress_visible self;
     btn_run_enabled := btn_run_enabled self;
     status_message := status_message self;
     ai_output := ai_output self;
     worker := worker self |}.

(** [switch_mode]; the check marks of the two mode buttons, the widget
    shown in the centre and the placeholder of the input follow the mode
    and are not kept here. *)
Definition switch_mode (mode : str) (self : Workbench) : Workbench :=
  {| suite := set_mode mode (suite self);
     code_tabs := code_tabs self;
     currentIndex := currentIndex self |}.

(** [code_tabs.setCurrentIndex(i)] for an index of a tab. *)
Definition setCurrentIndex (i : nat) (self : Workbench) : Workbench :=
  {| suite := set_currentWidget (text <$> code_tabs self !! i) (suite self);
     code_tabs := code_tabs self;
     currentIndex := i |}.

(** [add_code_tab] *)
Definition add_code_tab (title content path : str) (self : Workbench)
    : Workbench :=
  let tabs :=
    code_tabs self
      ++ [{| tabText := title; text := content;
             tabToolTip := if truthy path then path else [] |}] in
  setCurrentIndex (length tabs - 1)
    {| suite := suite self; code_tabs := tabs;
       currentIndex := currentIndex self |}.

(** The loop of [load_to_viewer]: the first index, from [i] on, of a tab
    whose tool tip is the path. *)
Fixpoint find_tab (path : str) (tabs : list tab) (i : nat) : option nat :=
  match tabs with
  | [] => None
  | t :: tabs' =>
      if decide (tabToolTip t = path) then Some i
      else find_tab path tabs' (S i)
  end.

Section Load.

(** [os.path.basename] *)
Variable basename : str -> str.

(** [load_to_viewer] *)
Definition load_to_viewer (path content : str) (is_doc : bool)
    (self : Workbench) : Workbench :=
  let filename := basename path in
  if is_doc then
    let self := switch_mode (lit "edu") self in
    {| suite :=
         set_doc_viewer
           (lit "--- DOCUMENT: " ++ filename ++ lit " ---" ++ nl ++ nl
              ++ content)
           (suite self);
       code_tabs := code_tabs self;
       currentIndex := currentIndex self |}
  else
    let self := switch_mode (lit "code") self in
    match find_tab path (code_tabs self) 0 with
    | Some i => setCurrentIndex i self
    | None => add_code_tab filename content path self
    end.

End Load.

End Viewer.

(** ** main.py: the Git panel of the IDE *)

Module GitPanel.
Import Git.

(** The fields and widgets of [FullFeatureIDE] that the Git panel reads
    or writes; [console] holds the paragraphs appended to the console. *)
Record Panel := {
  current_repo_path : option (list N);
  git_manager : GitManager;
  git_branch_label : str;
  git_status_label : str;
  git_log_text : str;
  git_status_list : list (list N);
  git_commit_input : str;
  console : list (list N)
}.

(** The window as [__init__] and [create_git_panel] leave it. *)
Definition init : Panel :=
  {| current_repo_path := None;
     git_manager := {| repo_path := None |};
     git_branch_label := lit "Branch: -";
     git_status_label := lit "No Git";
     git_log_text := [];
     git_status_list := [];
     git_commit_input := [];
     console := [] |}.

(** [status.get(key, [])] *)
Definition get_paths (status : gmap (list N) (list (list N))) (key : str)
    : list (list N) :=
  default [] (status !! key).

(** The items [update_git_status] puts in the list. *)
Definition status_items (status : gmap (list N) (list (list N)))
    : list (list N) :=
  List.map (fun filepath => lit "M  " ++ filepath)
    (get_paths status (lit "modified"))
  ++ List.map (fun filepath => lit "A  " ++ filepath)
       (get_paths status (lit "added"))
  ++ List.map (fun filepath => lit "D  " ++ filepath)
       (get_paths status (lit "deleted"))
  ++ List.map (fun filepath => lit "?? " ++ filepath)
       (get_paths status (lit "untracked")).

(** [update_git_status], connected to [status_updated]. *)
Definition update_git_status (status : gmap (list N) (list (list N)))
    (self : Panel) : Panel :=
  {| current_repo_path := current_repo_path self;
     git_manager := git_manager self;
     git_branch_label := git_branch_label self;
     git_status_label := git_status_label self;
     git_log_text := git_log_text self;
     git_status_list := status_items status;
     git_commit_input := git_commit_input self;
     console := console self |}.

Definition console_append (text : str) (self : Panel) : Panel :=
  {| current_repo_path := current_repo_path self;
     git_manager := git_manager self;
     git_branch_label := git_branch_label self;
     git_status_label := git_status_label self;
     git_log_text := git_log_text self;
     git_status_list := git_status_list self;
     git_commit_input := git_commit_input self;
     console := console self ++ [text] |}.

(** [append_console], connected to [output_ready]. *)
Definition append_console (text : str) (self : Panel) : Panel :=
  console_append text self.

(** [append_console_error], connected to [error_occurred]. *)
Definition append_console_error (text : str) (self : Panel) : Panel :=
  console_append
    (lit "<span style=" ++ [34] ++ lit "color: #ff453a;" ++ [34] ++ lit ">"
       ++ text ++ lit "</span>")
    self.

(** The slot a signal of the manager reaches. *)
Definition handle (self : Panel) (e : event) : Panel :=
  match e with
  | status_updated status => update_git_status status self
  | output_ready text => append_console text self
  | error_occurred text => append_console_error text self
  | spawn _ _ _ => self
  end.

Definition set_labels (branch : str) (self : Panel) : Panel :=
  {| current_repo_path := current_repo_path self;
     git_manager := git_manager self;
     git_branch_label := lit "Branch: " ++ branch;
     git_status_label := lit "Git: " ++ branch;
     git_log_text := git_log_text self;
     git_status_list := git_status_list self;
     git_commit_input := git_commit_input self;
     console := console self |}.

Definition set_log_text (log : str) (self : Panel) : Panel :=
  {| current_repo_path := current_repo_path self;
     git_manager := git_manager self;
     git_branch_label := git_branch_label self;
     git_status_label := git_status_label self;
     git_log_text := log;
     git_status_list := git_status_list self;
     git_commit_input := git_commit_input self;
     console := console self |}.

Definition set_commit_input (text : str) (self : Panel) : Panel :=
  {| current_repo_path := current_repo_path self;
     git_manager := git_manager self;
     git_branch_label := git_branch_label self;
     git_status_label := git_status_label self;
     git_log_text := git_log_text self;
     git_status_list := git_status_list self;
     git_commit_input := text;
     console := console self |}.

Definition set_folder (folder : str) (self : Panel) : Panel :=
  {| current_repo_path := Some folder;
     git_manager := set_repo_path (Some folder) (git_manager self);
     git_branch_label := git_branch_label self;
     git_status_label := git_status_label self;
     git_log_text := git_log_text self;
     git_status_list := git_status_list self;
     git_commit_input := git_commit_input self;
     console := console self |}.

Section Panel.

Variable world : Type.
Variable subprocess_run :
  list (list N) -> list N -> Z -> world -> run_outcome * world.

(** A call of a method of the manager from the window: the value it
    returns, the window after the slots of its signals have run, the
    world, and the events of the call. *)
Definition call {A} (m : M world A) (self : Panel) (w : world)
    : A * Panel * world * list event :=
  let '(a, (w', es)) := m (w, []) in (a, foldl handle self es, w', es).

(** [git_refresh] *)
Definition git_refresh (self : Panel) (w : world)
    : Panel * world * list event :=
  if negb (truthy_opt (current_repo_path self)) then (self, w, [])
  else
    let '(branch, self, w, es1) :=
      call (get_branch world subprocess_run (git_manager self)) self w in
    let self := set_labels branch self in
    let '(_, self, w, es2) :=
      call (get_status world subprocess_run (git_manager self)) self w in
    let '(log, self, w, es3) :=
      call (get_log world subprocess_run (git_manager self) 10) self w in
    (set_log_text log self, w, es1 ++ es2 ++ es3).

(** [git_add_all] *)
Definition git_add_all (self : Panel) (w : world)
    : Panel * world * list event :=
  let '(_, self, w, es) :=
    call (add_files world subprocess_run (git_manager self) [lit "."])
      self w in
  (self, w, es).

(** [git_commit]; the last component tells whether the warning
    "Enter commit message" was shown. *)
Definition git_commit (self : Panel) (w : world)
    : Panel * world * list event * bool :=
  let message := strip (git_commit_input self) in
  if negb (truthy message) then (self, w, [], true)
  else
    let '(_, self, w, es) :=
      call (commit world subprocess_run (git_manager self) message)
        self w in
    (set_commit_input [] self, w, es, false).

(** [git_push] and [git_pull] *)
Definition git_push (self : Panel) (w : world)
    : Panel * world * list event :=
  let '(_, self, w, es) :=
    call (push world subprocess_run (git_manager self) None None) self w in
  (self, w, es).

Definition git_pull (self : Panel) (w : world)
    : Panel * world * list event :=
  let '(_, self, w, es) :=
    call (pull world subprocess_run (git_manager self) None None) self w in
  (self, w, es).

(** [select_folder] for the answer of the folder dialog, the empty
    string when it was cancelled. *)
Definition select_folder (folder : str) (self : Panel) (w : world)
    : Panel * world * list event :=
  if truthy folder then git_refresh (set_folder folder self) w
  else (self, w, []).

End Panel.

End GitPanel.

(** * Vocabulary of the properties *)

(** A string of white space only (the empty string included). *)
Definition blank (s : str) : Prop := Forall (fun c => isspace c = true) s.

(** Provider SDKs for examples: one whose calls all raise with a given
    text, one whose calls all answer with a given text. *)
Definition sdk_raising (msg : str) : sdk :=
  {| generate_content := fun _ _ _ => Raise (SDKError msg);
     chat_completions_create := fun _ _ _ _ => Raise (SDKError msg);
     messages_create := fun _ _ _ _ => Raise (SDKError msg) |}.

Definition sdk_answering (text : str) : sdk :=
  {| generate_content := fun _ _ _ => Ok text;
     chat_completions_create := fun _ _ _ _ => Ok [text];
     messages_create := fun _ _ _ _ => Ok [text] |}.

Module AppSpec.
Import App.

(** The truncation limit of a mode: 20000 characters in code mode,
    30000 in the other (document, "edu") mode. *)
Definition limit (mode : str) : nat :=
  if decide (mode = lit "code") then N.to_nat 20000 else N.to_nat 30000.

(** The part of the content a prompt is to include: the whole content
    when it is no longer than the limit, its first [limit] characters
    otherwise. *)
Definition included (mode content : str) : str :=
  if decide (length content <= limit mode)%nat then content
  else take (limit mode) content.

(** The text of the user prompt before and after the content. *)
Definition header (mode instruction : str) : str :=
  if decide (mode = lit "code") then
    lit "Instruction: " ++ instruction ++ nl ++ nl
      ++ lit "Code Context:" ++ nl
  else
    nl ++ indent ++ lit "Instruction: " ++ instruction ++ nl
      ++ nl
      ++ indent ++ lit "Source Material (Lecture/Notes):" ++ nl
      ++ indent.

Definition footer (mode : str) : str :=
  if decide (mode = lit "code") then []
  else
    nl ++ nl ++ indent
      ++ lit "Task: Explain clearly, summarize key points, or create a quiz as requested."
      ++ nl
      ++ indent ++ lit "Output: Markdown formatted." ++ nl
      ++ indent.

(** The content [run_ai] works on: the text of the current code tab in
    code mode (there may be none), the text of the document viewer
    otherwise. *)
Definition content_of (self : TunnerSuite) : option (list N) :=
  if decide (current_mode self = lit "code")
  then code_tabs_currentWidget self
  else Some (doc_viewer self).

(** The credential [get_keys] resolves for a provider. *)
Definition credential (settings environ : gmap (list N) (list N))
    (p : str) : option (list N) :=
  if truthy (default [] (settings !! (p ++ lit "_key")))
  then Some (default [] (settings !! (p ++ lit "_key")))
  else environ !! (upper p ++ lit "_API_KEY").

Definition empty_warning : ui_event :=
  warning (lit "Empty") (lit "Please select a file first.").

(** No credential can be resolved for a provider: the stored setting is
    missing or empty and so is the environment variable. *)
Definition unresolved (settings environ : gmap (list N) (list N))
    (p : str) : Prop :=
  truthy (default [] (settings !! (p ++ lit "_key"))) = false
  /\ truthy_opt (environ !! (upper p ++ lit "_API_KEY")) = false.

(** A window as it is after start-up (run button enabled, nothing in
    progress), in a given mode, showing a given document, with a given
    model selected and no code tab. *)
Definition suite (mode doc model : str) : TunnerSuite :=
  {| current_mode := mode;
     code_tabs_currentWidget := None;
     doc_viewer := doc;
     ai_input := lit "Summarize this";
     model_box_currentText := model;
     progress_visible := false;
     btn_run_enabled := true;
     status_message := [];
     ai_output := [];
     worker := None |}.

(** A store of settings with one key for one provider. *)
Definition stored (p key : str) : gmap (list N) (list N) :=
  {[ p ++ lit "_key" := key ]}.

(** A worker for the Anthropic model of the table, as [run_ai] builds it
    when the key "sk" is stored. *)
Definition anthropic_worker : AIWorker :=
  AIWorker_init (lit "code")
    {| provider := lit "anthropic";
       model_id := lit "claude-3-5-sonnet-20241022" |}
    (lit "x = 1") (lit "Explain")
    (get_keys (stored (lit "anthropic") (lit "sk")) ∅).

End AppSpec.

Module StudioSpec.
Import Studio.

(** A window as it is after start-up, with a given text in the editor
    and a given model selected. *)
Definition ide (text model : str) : FullFeatureIDE :=
  {| editor := text;
     model_combo_currentText := model;
     lang_combo_currentText := lit "Python";
     btn_refactor_enabled := true;
     btn_refactor_text := mark_refactor ++ lit " Refactor";
     status_label := lit "Ready";
     result_tabs := [];
     worker := None |}.

(** No credential can be resolved for a provider type: the environment
    variable is missing or empty and so is the stored setting. *)
Definition unresolved (settings environ : gmap (list N) (list N))
    (p_type : str) : Prop :=
  truthy_opt (environ !! (upper p_type ++ lit "_API_KEY")) = false
  /\ truthy (default [] (settings !! p_type)) = false.

(** A worker for the Anthropic model of the table. *)
Definition claude_worker : RefactorWorker :=
  {| model_name := lit "Claude 3.5 Sonnet";
     code := lit "x = 1";
     lang := lit "Python" |}.

Definition claude_conf : conf :=
  {| type := lit "anthropic"; model := lit "claude-3-5-sonnet-latest" |}.

(** The worker [refactor_code] creates for a window with code. *)
Definition worker_of (self : FullFeatureIDE) : RefactorWorker :=
  {| model_name := model_combo_currentText self;
     code := strip (editor self);
     lang := lang_combo_currentText self |}.

End StudioSpec.

Module GitSpec.
Import Git.

Definition status_args : list (list N) := [lit "status"; lit "--porcelain"].
Definition branch_args : list (list N) :=
  [lit "branch"; lit "--show-current"].

(** The keys of a status snapshot. *)
Definition buckets : list (list N) :=
  [lit "modified"; lit "added"; lit "deleted"; lit "untracked"].

(** The classification table: the bucket of a two-character code. *)
Definition bucket_of (status_code : str) : option (list N) :=
  if decide (status_code = lit " M") then Some (lit "modified")
  else if decide (status_code = lit "M ") then Some (lit "modified")
  else if decide (status_code = lit "A ") then Some (lit "added")
  else if decide (status_code = lit "D ") then Some (lit "deleted")
  else if decide (status_code = lit "??") then Some (lit "untracked")
  else None.

(** The standard output of a command that prints the given lines. *)
Definition printed (lines : list (list N)) : str :=
  List.concat (List.map (fun line => line ++ nl) lines).

(** A manager with a repository. *)
Definition repo : GitManager := {| repo_path := Some (lit "/repo") |}.

(** A world without state in which every command ends the same way. *)
Definition always (outcome : run_outcome)
    : list (list N) -> list N -> Z -> unit -> run_outcome * unit :=
  fun _ _ _ w => (outcome, w).

(** The standard output of a process that succeeded, [None] for a
    process that was not started, exited with another code than 0 or
    could not be run. *)
Definition succeeded (o : option run_outcome) : option (list N) :=
  match o with
  | Some (Completed returncode stdout _) =>
      if (returncode =? 0)%Z then Some stdout else None
  | _ => None
  end.

(** The events that start a process, and those that publish a status. *)
Definition spawned (es : list event) : list event :=
  List.filter is_spawn es.
Definition published (es : list event) : list event :=
  List.filter is_status_updated es.

Section Outcome.

Variable world : Type.
Variable subprocess_run :
  list (list N) -> list N -> Z -> world -> run_outcome * world.

(** How [git args] ends in the configured directory; [None] when no
    directory is configured, in which case nothing is run. *)
Definition command_outcome (self : GitManager) (args : list (list N))
    (w : world) : option run_outcome :=
  if truthy_opt (repo_path self) then
    Some (fst (subprocess_run (lit "git" :: args)
                 (default [] (repo_path self)) 30 w))
  else None.

(** The branch [push] and [pull] use: the one supplied, or the result of
    [get_branch] in the given state. *)
Definition chosen_branch (self : GitManager) (branch : option (list N))
    (s : world * list event) : str :=
  match branch with
  | Some b => b
  | None => fst (get_branch world subprocess_run self s)
  end.

(** The state in which [push] and [pull] run their own command. *)
Definition after_branch (self : GitManager) (branch : option (list N))
    (s : world * list event) : world * list event :=
  match branch with
  | Some _ => s
  | None => snd (get_branch world subprocess_run self s)
  end.

End Outcome.

End GitSpec.

(** The signals among the events of a worker thread, in order. *)
Definition signals (es : list event) : list event :=
  filter (fun e => is_call e = false) es.

(** The signal a worker emits for the outcome of a call that answers
    with a list of texts of which the first is the result. *)
Definition signal_of_first (answer : result (list (list N))) : event :=
  match answer with
  | Ok (text :: _) => Finished text
  | Ok [] => Error (lit "list index out of range")
  | Raise e => Error (exn_str e)
  end.

(** The requests among the events of a worker thread, in order. *)
Definition calls (es : list event) : list event := List.filter is_call es.

(** An event is one of the two signals. *)
Definition is_signal (e : event) : bool := is_finished e || is_error e.

Module AppSpec2.
Import App.

(** The worker [run_ai] creates for a window, a content and a model. *)
Definition worker_for (settings environ : gmap (list N) (list N))
    (self : TunnerSuite) (content : str) (info : model_info) : AIWorker :=
  AIWorker_init (current_mode self) info content (ai_input self)
    (get_keys settings environ).

(** The window while a worker runs: progress shown, run button disabled. *)
Definition busy (self : TunnerSuite) (w : AIWorker) : TunnerSuite :=
  {| current_mode := current_mode self;
     code_tabs_currentWidget := code_tabs_currentWidget self;
     doc_viewer := doc_viewer self;
     ai_input := ai_input self;
     model_box_currentText := model_box_currentText self;
     progress_visible := true;
     btn_run_enabled := false;
     status_message :=
       lit "AI Working in " ++ upper (current_mode self) ++ lit " mode...";
     ai_output := ai_output self;
     worker := Some w |}.

End AppSpec2.

Module GitSpec2.
Import Git GitSpec.

Definition is_error_occurred (e : event) : bool :=
  match e with error_occurred _ => true | _ => false end.

Definition errors (es : list event) : list event :=
  List.filter is_error_occurred es.

(** A process the manager may start: [git] with arguments, in the
    configured directory, with a timeout of 30 seconds. *)
Definition well_spawned (self : GitManager) (e : event) : Prop :=
  match e with
  | spawn argv cwd timeout =>
      (exists args, argv = lit "git" :: args)
      /\ repo_path self = Some cwd
      /\ cwd <> []
      /\ timeout = 30%Z
  | _ => True
  end.

(** The error [run_git_command] reports for a process that did not
    succeed. *)
Definition reported (r : run_outcome) : list event :=
  match r with
  | Completed returncode _ stderr =>
      if (returncode =? 0)%Z then [] else [error_occurred stderr]
  | Raised msg => [error_occurred msg]
  end.

Definition no_root : event := error_occurred (lit "No repository path set").

(** The lines [get_status] files under a key: the lines that are not
    empty and whose code the table sends to that key. *)
Definition selects (key line : str) : bool :=
  truthy line && bool_decide (bucket_of (take 2 line) = Some key).

(** The lines whose code is in the table. *)
Definition recognised (line : str) : bool :=
  truthy line
  && match bucket_of (take 2 line) with Some _ => true | None => false end.

(** The paths of a bucket, or nothing for a dict without the bucket. *)
Definition paths (status : gmap (list N) (list (list N))) (key : str)
    : list (list N) :=
  default [] (status !! key).

Section Tidy.

Variable world : Type.
Variable subprocess_run :
  list (list N) -> list N -> Z -> world -> run_outcome * world.

(** A method that only adds events, and starts only processes it may. *)
Definition tidy {A : Type} (self : GitManager) (m : M world A) : Prop :=
  forall (w : world) (log : list event),
    exists new,
      snd (snd (m (w, log))) = log ++ new
      /\ Forall (well_spawned self) new.

(** A method that starts no process and leaves the world as it is. *)
Definition idle {A : Type} (m : M world A) : Prop :=
  forall (w : world) (log : list event),
    exists new,
      snd (m (w, log)) = (w, log ++ new) /\ spawned new = [].

End Tidy.

End GitSpec2.

Module DebuggerSpec.
Import Debugger.

(** The lines of a program with a trace line before every line whose
    number is a breakpoint; the first of [lines] has number [n]. *)
Fixpoint instrument_from (n : Z) (breakpoints : gset Z)
    (lines : list (list N)) : list (list N) :=
  match lines with
  | [] => []
  | line :: lines' =>
      (if decide (n ∈ breakpoints) then [trace_line] else [])
        ++ line :: instrument_from (n + 1) breakpoints lines'
  end.

(** A file system in which a temporary file always gets the same name. *)
Definition named (path : str) : str -> unit -> result (list N) * unit :=
  fun _ w => (Ok path, w).

(** A file system in which no temporary file can be made. *)
Definition unwritable (msg : str) : str -> unit -> result (list N) * unit :=
  fun _ w => (Raise (SDKError msg), w).

(** A debugger with the given breakpoints and no process so far. *)
Definition fresh (bps : gset Z) : PythonDebugger :=
  {| breakpoints := bps; process := None |}.

End DebuggerSpec.

Module ViewerSpec.
Import Viewer.

(** The tool tips of the tabs: the paths of the open files. *)
Definition open_paths (self : Workbench) : list (list N) :=
  List.map tabToolTip (code_tabs self).

(** The window at start-up: no tab. *)
Definition start_up : Workbench :=
  {| suite := AppSpec.suite (lit "code") [] (lit "OpenAI: GPT-4o");
     code_tabs := [];
     currentIndex := 0 |}.

(** The last part of a path, after the last "/". *)
Definition last_part (path : str) : str := List.last (split 47 path) [].

End ViewerSpec.

Module GitPanelSpec.
Import Git GitSpec GitSpec2 GitPanel.

(** The window and its manager agree on the repository. *)
Definition coherent (self : Panel) : Prop :=
  current_repo_path self = repo_path (git_manager self).

(** The items shown for the lines of a status output: the modified, the
    added, the deleted and the untracked paths, each group in the order
    of the output. *)
Definition display (lines : list (list N)) : list (list N) :=
  List.map (fun line => lit "M  " ++ drop 3 line)
    (List.filter (selects (lit "modified")) lines)
  ++ List.map (fun line => lit "A  " ++ drop 3 line)
       (List.filter (selects (lit "added")) lines)
  ++ List.map (fun line => lit "D  " ++ drop 3 line)
       (List.filter (selects (lit "deleted")) lines)
  ++ List.map (fun line => lit "?? " ++ drop 3 line)
       (List.filter (selects (lit "untracked")) lines).

(** The window after the folder "/repo" was selected, with a commit
    message typed in. *)
Definition in_repo (message : str) : Panel :=
  {| current_repo_path := Some (lit "/repo");
     git_manager := repo;
     git_branch_label := lit "Branch: main";
     git_status_label := lit "Git: main";
     git_log_text := [];
     git_status_list := [lit "?? old.txt"];
     git_commit_input := message;
     console := [] |}.

End GitPanelSpec.

(** * Properties *)

(** ** Strings *)

Section StringFacts.

Lemma lstrip_blank (s : str) : blank s -> lstrip s = [].
Proof.
  induction 1 as [|c s Hc _ IH]; simpl; [reflexivity|].
  now rewrite Hc.
Qed.

Lemma strip_blank (s : str) : blank s -> strip s = [].
Proof.
  intros H. unfold strip, rstrip. now rewrite (lstrip_blank s H).
Qed.

Lemma truthy_false (s : str) : truthy s = false <-> s = [].
Proof. destruct s; simpl; split; congruence. Qed.

End StringFacts.

(** ** app.py *)

Module AppFacts.
Import App AppSpec.

(** *** The prompt *)

Lemma included_take (mode content : str) :
  included mode content = take (limit mode) content.
Proof.
  unfold included. destruct (decide _) as [Hle|]; [|reflexivity].
  symmetry. now apply take_ge.
Qed.

(** C1.  The user prompt is a text that depends on the mode and the
    instruction only, followed by the included part of the content,
    followed by a text that depends on the mode only; the included part
    is the first N characters of the content (N = 20000 in code mode,
    30000 otherwise), all of the content when it has at most N
    characters, and it never has more than N characters. *)
Theorem user_prompt_truncation
    (mode : str) (info : model_info) (content instruction : str)
    (api_keys : gmap (list N) (option (list N))) :
  user_prompt (AIWorker_init mode info content instruction api_keys)
    = header mode instruction ++ included mode content ++ footer mode
  /\ included mode content = take (limit mode) content
  /\ length (included mode content)
     = Nat.min (limit mode) (length content)
  /\ N.of_nat (limit mode)
     = (if decide (mode = lit "code") then 20000 else 30000).
Proof.
  split; [|split; [|split]].
  - rewrite included_take.
    unfold user_prompt, header, footer, limit, AIWorker_init.
    cbn [w_mode w_content w_instruction].
    destruct (decide (mode = lit "code")).
    + rewrite app_nil_r. now rewrite <- !app_assoc.
    + now rewrite <- !app_assoc.
  - apply included_take.
  - rewrite included_take. apply length_take.
  - unfold limit. destruct (decide _); apply N2Nat.id.
Qed.

(** *** Submitting a task *)

Lemma get_keys_lookup (settings environ : gmap (list N) (list N))
    (p : str) :
  p ∈ providers ->
  get_keys settings environ !! p = Some (credential settings environ p).
Proof.
  intros Hp. unfold get_keys, providers in *. cbn [foldl].
  unfold credential.
  repeat (apply elem_of_cons in Hp as [->|Hp];
          [ repeat (rewrite lookup_insert_ne by (now vm_compute));
            now rewrite lookup_insert_eq | ]).
  now apply elem_of_nil in Hp.
Qed.

(** Every model of the table names one of the five providers. *)
Lemma MODELS_CONFIG_provider (name : str) (info : model_info) :
  MODELS_CONFIG !! name = Some info -> provider info ∈ providers.
Proof.
  revert name info.
  change (map_Forall (fun _ info => provider info ∈ providers)
            MODELS_CONFIG).
  apply (bool_decide_unpack _). now vm_compute.
Qed.

(** C5.  When the content of the task is empty or white space only,
    [run_ai] shows the "Empty" warning and returns at once with the
    window unchanged: no worker is created or started, and a click on
    the run button, followed to its end, produces no request and no
    signal of a worker. *)
Theorem run_ai_empty_input
    (s : sdk) (settings environ : gmap (list N) (list N))
    (self : TunnerSuite) (content : str) :
  content_of self = Some content ->
  blank content ->
  run_ai settings environ self = Ok (self, [empty_warning])
  /\ click_run s settings environ self
     = Ok (self, if btn_run_enabled self then [empty_warning] else [], []).
Proof.
  intros Hc Hb.
  assert (Hrun : run_ai settings environ self = Ok (self, [empty_warning])).
  { unfold run_ai, content_of in *.
    destruct (decide (current_mode self = lit "code")).
    - rewrite Hc. cbn [rbind]. now rewrite (strip_blank _ Hb).
    - injection Hc as ->. cbn [rbind]. now rewrite (strip_blank _ Hb). }
  split; [exact Hrun|].
  unfold click_run. rewrite Hrun.
  now destruct (btn_run_enabled self).
Qed.

(** A document of one space and one line feed is refused. *)
Lemma run_ai_empty_input_witness :
  run_ai ∅ ∅ (suite (lit "edu") (lit " " ++ nl) (lit "OpenAI: GPT-4o"))
    = Ok (suite (lit "edu") (lit " " ++ nl) (lit "OpenAI: GPT-4o"),
          [empty_warning])
  /\ click_run (sdk_answering (lit "ok")) ∅ ∅
       (suite (lit "edu") (lit " " ++ nl) (lit "OpenAI: GPT-4o"))
     = Ok (suite (lit "edu") (lit " " ++ nl) (lit "OpenAI: GPT-4o"),
           [empty_warning], []).
Proof.
  apply (run_ai_empty_input (sdk_answering (lit "ok")) ∅ ∅
           (suite (lit "edu") (lit " " ++ nl) (lit "OpenAI: GPT-4o"))
           (lit " " ++ nl)).
  - reflexivity.
  - repeat (constructor; [reflexivity|]). constructor.
Defined.

(** [run_ai] with a content that is not blank, a model of the table and
    no credential for its provider: the settings dialog opens and nothing
    else happens. *)
Lemma run_ai_unresolved
    (settings environ : gmap (list N) (list N)) (self : TunnerSuite)
    (content : str) (info : model_info) :
  content_of self = Some content ->
  truthy (strip content) = true ->
  MODELS_CONFIG !! model_box_currentText self = Some info ->
  unresolved settings environ (provider info) ->
  run_ai settings environ self = Ok (self, [open_settings]).
Proof.
  intros Hc Hs Hm [Hset Henv].
  assert (Hk : mjoin (get_keys settings environ !! provider info)
               = environ !! (upper (provider info) ++ lit "_API_KEY")).
  { rewrite (get_keys_lookup _ _ _ (MODELS_CONFIG_provider _ _ Hm)).
    unfold credential. now rewrite Hset. }
  unfold run_ai, content_of in *.
  destruct (decide (current_mode self = lit "code")).
  - rewrite Hc. cbn [rbind]. rewrite Hs. cbn [negb].
    unfold getitem. rewrite Hm. cbn [rbind]. now rewrite Hk, Henv.
  - injection Hc as ->. cbn [rbind]. rewrite Hs. cbn [negb].
    unfold getitem. rewrite Hm. cbn [rbind]. now rewrite Hk, Henv.
Qed.

(** *** AIWorker.run *)

(** A [try] block that emits its value or the text of its exception
    emits exactly one signal. *)
Lemma try_emit_signals (body : W (list N)) :
  signals (try_emit body)
  = [match snd body with
     | Ok text => Finished text
     | Raise e => Error (exn_str e)
     end].
Proof.
  destruct body as [sent [text|e]]; unfold try_emit, signals; cbn [snd];
    rewrite filter_app;
    (replace (filter _ (List.map Call sent)) with (@nil event);
     [reflexivity|]);
    induction sent as [|rq sent IH]; simpl; auto.
Qed.

(** An exception that leaves the [try] block becomes the one signal of
    the worker, [error] with the text of the exception. *)
Lemma run_error_text (s : sdk) (self : AIWorker) (e : exn) :
  snd (response_text s self) = Raise e ->
  signals (run s self) = [Error (exn_str e)].
Proof. intros H. unfold run. now rewrite try_emit_signals, H. Qed.

(** The worker emits [finished] once or [error] once, never both. *)
Lemma run_one_signal (s : sdk) (self : AIWorker) :
  exists text, signals (run s self) = [Finished text]
               \/ signals (run s self) = [Error text].
Proof.
  unfold run. rewrite try_emit_signals.
  destruct (snd (response_text s self)) as [text|e]; eauto.
Qed.

End AppFacts.

(** ** main.py: the refactor worker *)

Module StudioFacts.
Import Studio StudioSpec.

(** Decide a proposition about literals by computation. *)
Ltac by_computation := apply (bool_decide_unpack _); vm_compute; exact I.

Lemma get_key_unresolved (settings environ : gmap (list N) (list N))
    (p_type : str) :
  unresolved settings environ p_type ->
  truthy (get_key settings environ p_type) = false.
Proof.
  intros [Henv Hset]. unfold get_key. now rewrite Henv.
Qed.

(** Without a credential the worker emits the text of the [ValueError] of
    [create], and sends nothing. *)
Lemma run_unresolved (s : sdk) (settings environ : gmap (list N) (list N))
    (self : RefactorWorker) (c : conf) :
  MODELS !! model_name self = Some c ->
  unresolved settings environ (type c) ->
  run s settings environ self
  = [Error (lit "Missing API Key for " ++ type c)].
Proof.
  intros Hm Hu. unfold run, emitted_text, create.
  rewrite Hm. cbn zeta. rewrite (get_key_unresolved _ _ _ Hu).
  reflexivity.
Qed.

(** With code in the editor, [refactor_code] starts a worker, whatever
    the credentials are: it does not read them. *)
Lemma refactor_code_starts (self : FullFeatureIDE) :
  truthy (strip (editor self)) = true ->
  snd (refactor_code self) = [start (worker_of self)]
  /\ worker (fst (refactor_code self)) = Some (worker_of self)
  /\ btn_refactor_enabled (fst (refactor_code self)) = false.
Proof.
  intros H. unfold refactor_code. rewrite H. cbn. auto.
Qed.

(** The request of a worker whose model is of type "anthropic". *)
Lemma run_anthropic (s : sdk) (settings environ : gmap (list N) (list N))
    (self : RefactorWorker) (c : conf) :
  MODELS !! model_name self = Some c ->
  type c = lit "anthropic" ->
  truthy (get_key settings environ (type c)) = true ->
  run s settings environ self
  = [Call (MessagesCreate (Some (get_key settings environ (type c)))
             (model c) 8192 [user_message (prompt self)]);
     signal_of_first
       (messages_create s (Some (get_key settings environ (type c)))
          (model c) 8192 [user_message (prompt self)])].
Proof.
  intros Hm Ht Hk. unfold run, emitted_text, create.
  rewrite Hm. cbn zeta. rewrite Hk. cbn [negb].
  rewrite !Ht.
  rewrite (decide_False (P := lit "anthropic" = lit "gemini"))
    by by_computation.
  rewrite (decide_False (P := lit "anthropic" = lit "openai"))
    by by_computation.
  rewrite (decide_True (P := lit "anthropic" = lit "anthropic"))
    by reflexivity.
  unfold send, wbind, lift, wret, first, signal_of_first.
  destruct (messages_create s _ _ _ _) as [[|text blocks]|e]; reflexivity.
Qed.

Lemma signals_calls (sent : list request) (rest : list event) :
  signals (List.map Call sent ++ rest) = signals rest.
Proof.
  unfold signals. rewrite filter_app.
  replace (filter _ (List.map Call sent)) with (@nil event); [reflexivity|].
  induction sent as [|rq sent IH]; simpl; auto.
Qed.

(** The signals of the refactor worker: [finished] with the text of the
    answer, or [error] with the text of the exception. *)
Lemma run_signals (s : sdk) (settings environ : gmap (list N) (list N))
    (self : RefactorWorker) :
  signals (run s settings environ self)
  = match snd (emitted_text s settings environ self) with
    | Ok (Some text) => [Finished text]
    | Ok None => []
    | Raise e => [Error (exn_str e)]
    end.
Proof.
  unfold run.
  destruct (emitted_text s settings environ self) as [sent [[text|]|e]];
    cbn [snd]; [| rewrite <- (app_nil_r (List.map Call sent)) |];
    now rewrite signals_calls.
Qed.

(** Both handlers of the refactor worker enable the button again. *)
Lemma deliver_enables (e : event) (self : FullFeatureIDE) :
  is_call e = false ->
  btn_refactor_enabled (fst (deliver e self)) = true.
Proof. destruct e; simpl; congruence. Qed.

End StudioFacts.

(** ** The two dispatchers side by side *)

Module DispatchFacts.
Import AppSpec StudioSpec.

(** The request of an [AIWorker] whose provider is "anthropic". *)
Lemma run_messages_call (s : sdk) (self : App.AIWorker)
    (key : option (list N)) :
  App.w_provider self = lit "anthropic" ->
  App.w_api_keys self !! lit "anthropic" = Some key ->
  App.run s self
  = [Call (MessagesCreate key (App.w_model_id self) 4096
             [App.user_message (App.full_prompt self)]);
     signal_of_first
       (messages_create s key (App.w_model_id self) 4096
          [App.user_message (App.full_prompt self)])].
Proof.
  intros Hp Hk. unfold App.run, App.response_text.
  rewrite !Hp.
  rewrite (decide_False (P := lit "anthropic" = lit "gemini"))
    by StudioFacts.by_computation.
  rewrite (decide_False
             (P := lit "anthropic"
                   ∈ [lit "openai"; lit "deepseek"; lit "perplexity"]))
    by StudioFacts.by_computation.
  rewrite (decide_True (P := lit "anthropic" = lit "anthropic"))
    by reflexivity.
  unfold getitem. rewrite Hk.
  unfold send, wbind, lift, first, signal_of_first, try_emit.
  destruct (messages_create s _ _ _ _) as [[|text blocks]|e]; reflexivity.
Qed.

(** C9.  A task for the "anthropic" provider sends one request, a
    messages call with exactly one message, of role "user", carrying the
    prompt, and a token ceiling of 4096 in [AIWorker] (app.py) and of 8192
    in [RefactorWorker] (main.py); the one signal that follows carries the
    text of the first content block of the answer. *)
Theorem anthropic_request
    (s : sdk)
    (self : App.AIWorker) (key : option (list N))
    (settings environ : gmap (list N) (list N))
    (worker : Studio.RefactorWorker) (c : Studio.conf) :
  App.w_provider self = lit "anthropic" ->
  App.w_api_keys self !! lit "anthropic" = Some key ->
  Studio.MODELS !! Studio.model_name worker = Some c ->
  Studio.type c = lit "anthropic" ->
  truthy (Studio.get_key settings environ (Studio.type c)) = true ->
  App.run s self
  = [Call (MessagesCreate key (App.w_model_id self) 4096
             [{| role := lit "user"; content := App.full_prompt self |}]);
     signal_of_first
       (messages_create s key (App.w_model_id self) 4096
          [{| role := lit "user"; content := App.full_prompt self |}])]
  /\ Studio.run s settings environ worker
     = [Call (MessagesCreate
                (Some (Studio.get_key settings environ (Studio.type c)))
                (Studio.model c) 8192
                [{| role := lit "user"; content := Studio.prompt worker |}]);
        signal_of_first
          (messages_create s
             (Some (Studio.get_key settings environ (Studio.type c)))
             (Studio.model c) 8192
             [{| role := lit "user"; content := Studio.prompt worker |}])]
  /\ (forall text blocks, signal_of_first (Ok (text :: blocks)) = Finished text).
Proof.
  intros Hp Hk Hm Ht Hkey. split; [|split].
  - exact (run_messages_call s self key Hp Hk).
  - exact (StudioFacts.run_anthropic s settings environ worker c Hm Ht Hkey).
  - reflexivity.
Qed.

(** C3, as amended.  Without a resolvable credential for the provider of
    the selected model: in app.py [run_ai] opens the settings dialog and
    returns with the window unchanged, no worker is started and a click on
    the run button produces no request and no signal; in main.py
    [refactor_code] does start the worker, which sends no request and
    emits one [error] signal, "Missing API Key for" followed by the
    provider type. *)
Theorem missing_credential
    (s : sdk)
    (settings environ : gmap (list N) (list N)) (self : App.TunnerSuite)
    (content : str) (info : App.model_info)
    (settings' environ' : gmap (list N) (list N))
    (ide : Studio.FullFeatureIDE) (c : Studio.conf) :
  content_of self = Some content ->
  truthy (strip content) = true ->
  App.MODELS_CONFIG !! App.model_box_currentText self = Some info ->
  AppSpec.unresolved settings environ (App.provider info) ->
  truthy (strip (Studio.editor ide)) = true ->
  Studio.MODELS !! Studio.model_combo_currentText ide = Some c ->
  StudioSpec.unresolved settings' environ' (Studio.type c) ->
  (App.run_ai settings environ self = Ok (self, [App.open_settings])
   /\ App.click_run s settings environ self
      = Ok (self,
            if App.btn_run_enabled self then [App.open_settings] else [],
            []))
  /\ (snd (Studio.refactor_code ide) = [Studio.start (worker_of ide)]
      /\ Studio.run s settings' environ' (worker_of ide)
         = [Error (lit "Missing API Key for " ++ Studio.type c)]).
Proof.
  intros Hc Hs Hm Hu Hs' Hm' Hu'.
  pose proof (AppFacts.run_ai_unresolved _ _ _ _ _ Hc Hs Hm Hu) as Hrun.
  repeat split.
  - exact Hrun.
  - unfold App.click_run. rewrite Hrun.
    now destruct (App.btn_run_enabled self).
  - now apply StudioFacts.refactor_code_starts.
  - now apply (StudioFacts.run_unresolved s settings' environ' _ c).
Qed.

(** The theorem at two concrete tasks, with an SDK that answers "ok". *)
Lemma anthropic_request_witness :
  App.run (sdk_answering (lit "ok")) anthropic_worker
  = [Call (MessagesCreate (Some (lit "sk"))
             (App.w_model_id anthropic_worker) 4096
             [{| role := lit "user";
                 content := App.full_prompt anthropic_worker |}]);
     Finished (lit "ok")]
  /\ Studio.run (sdk_answering (lit "ok")) {[ lit "anthropic" := lit "sk" ]} ∅
       claude_worker
     = [Call (MessagesCreate (Some (lit "sk"))
                (lit "claude-3-5-sonnet-latest") 8192
                [{| role := lit "user";
                    content := Studio.prompt claude_worker |}]);
        Finished (lit "ok")]
  /\ (forall text blocks, signal_of_first (Ok (text :: blocks)) = Finished text).
Proof.
  refine (anthropic_request (sdk_answering (lit "ok"))
            anthropic_worker (Some (lit "sk"))
            {[ lit "anthropic" := lit "sk" ]} ∅ claude_worker claude_conf
            _ _ _ _ _).
  - reflexivity.
  - vm_compute. reflexivity.
  - vm_compute. reflexivity.
  - reflexivity.
  - vm_compute. reflexivity.
Defined.

(** The theorem at two concrete windows, with nothing stored and an empty
    environment. *)
Lemma missing_credential_witness :
  (App.run_ai ∅ ∅ (suite (lit "edu") (lit "notes") (lit "OpenAI: GPT-4o"))
   = Ok (suite (lit "edu") (lit "notes") (lit "OpenAI: GPT-4o"),
         [App.open_settings])
   /\ App.click_run (sdk_answering (lit "ok")) ∅ ∅
        (suite (lit "edu") (lit "notes") (lit "OpenAI: GPT-4o"))
      = Ok (suite (lit "edu") (lit "notes") (lit "OpenAI: GPT-4o"),
            [App.open_settings], []))
  /\ (snd (Studio.refactor_code (ide (lit "x = 1") (lit "GPT-4o")))
      = [Studio.start (worker_of (ide (lit "x = 1") (lit "GPT-4o")))]
      /\ Studio.run (sdk_answering (lit "ok")) ∅ ∅
           (worker_of (ide (lit "x = 1") (lit "GPT-4o")))
         = [Error (lit "Missing API Key for " ++ lit "openai")]).
Proof.
  apply (missing_credential (sdk_answering (lit "ok")) ∅ ∅
           (suite (lit "edu") (lit "notes") (lit "OpenAI: GPT-4o"))
           (lit "notes")
           {| App.provider := lit "openai"; App.model_id := lit "gpt-4o" |}
           ∅ ∅ (ide (lit "x = 1") (lit "GPT-4o"))
           {| Studio.type := lit "openai"; Studio.model := lit "gpt-4o" |}).
  - reflexivity.
  - reflexivity.
  - vm_compute. reflexivity.
  - split; reflexivity.
  - reflexivity.
  - vm_compute. reflexivity.
  - split; reflexivity.
Defined.

(** C3, as stated, fails in main.py: with code in the editor, the model
    "GPT-4o" selected, nothing stored and an empty environment, no
    credential is resolved for "openai", and [refactor_code] starts a
    worker all the same; the failure is the worker's [error] signal. *)
Lemma refactor_code_starts_worker_without_credential :
  Studio.get_key ∅ ∅ (lit "openai") = []
  /\ snd (Studio.refactor_code (ide (lit "x = 1") (lit "GPT-4o")))
     = [Studio.start {| Studio.model_name := lit "GPT-4o";
                        Studio.code := lit "x = 1";
                        Studio.lang := lit "Python" |}]
  /\ Studio.run (sdk_answering (lit "ok")) ∅ ∅
       {| Studio.model_name := lit "GPT-4o";
          Studio.code := lit "x = 1";
          Studio.lang := lit "Python" |}
     = [Error (lit "Missing API Key for openai")].
Proof. repeat split; vm_compute; reflexivity. Qed.

(** C6, on app.py.  A document is open, a Gemini model is selected, its
    key is stored, and the SDK raises "boom".  One click on the run button
    starts the worker, which emits one [error] signal carrying "boom" and
    no [finished] signal; the window then still has its run button
    disabled and its progress bar shown, so the next click on the run
    button does nothing: only [on_ai_finished] enables the button again,
    the handler of [error] shows a message box and no more. *)
Theorem click_run_error_keeps_button_disabled :
  match App.click_run (sdk_raising (lit "boom"))
          (stored (lit "gemini") (lit "k")) ∅
          (suite (lit "edu") (lit "notes") (lit "Google: Gemini 2.5 Flash"))
  with
  | Ok (win, shown, es) =>
      signals es = [Error (lit "boom")]
      /\ List.last shown App.open_settings
         = App.critical (lit "Error") (lit "boom")
      /\ App.btn_run_enabled win = false
      /\ App.progress_visible win = true
      /\ App.click_run (sdk_answering (lit "ok"))
           (stored (lit "gemini") (lit "k")) ∅ win
         = Ok (win, [], [])
  | Raise _ => False
  end.
Proof. vm_compute. repeat split. Qed.

(** The same task in main.py: after the [error] signal the refactor
    button is enabled again. *)
Lemma click_refactor_error_enables_button :
  match Studio.click_refactor (sdk_raising (lit "boom"))
          {[ lit "gemini" := lit "k" ]} ∅
          (ide (lit "x = 1") (lit "Gemini 2.0 Flash"))
  with
  | (win, shown, es) =>
      signals es = [Error (lit "boom")]
      /\ Studio.btn_refactor_enabled win = true
  end.
Proof. vm_compute. repeat split. Qed.

End DispatchFacts.

(** ** main.py: GitManager *)

Module GitFacts.
Import Git GitSpec.

Section Manager.

Variable world : Type.
Variable subprocess_run :
  list (list N) -> list N -> Z -> world -> run_outcome * world.

Abbreviation run_git_command := (Git.run_git_command world subprocess_run).
Abbreviation get_status := (Git.get_status world subprocess_run).
Abbreviation get_branch := (Git.get_branch world subprocess_run).
Abbreviation push := (Git.push world subprocess_run).
Abbreviation pull := (Git.pull world subprocess_run).
Abbreviation command_outcome := (GitSpec.command_outcome world subprocess_run).

(** *** run_git_command *)

Lemma run_git_command_unset
    (self : GitManager) (args : list (list N)) (w : world)
    (log : list event) :
  truthy_opt (repo_path self) = false ->
  run_git_command self args (w, log)
  = (None, (w, log ++ [error_occurred (lit "No repository path set")])).
Proof. intros H. unfold Git.run_git_command. now rewrite H. Qed.

(** C7.  With no repository path configured ([None] or the empty string),
    [run_git_command] emits the error "No repository path set" and returns
    [None]; it starts no process: the world is as it was and the one new
    event is the error. *)
Theorem run_git_command_no_root
    (self : GitManager) (args : list (list N)) (w : world)
    (log : list event) :
  truthy_opt (repo_path self) = false ->
  run_git_command self args (w, log)
  = (None, (w, log ++ [error_occurred (lit "No repository path set")]))
  /\ spawned (snd (snd (run_git_command self args (w, log))))
     = spawned log.
Proof.
  intros H. rewrite (run_git_command_unset self args w log H).
  split; [reflexivity|]. cbn [snd]. unfold spawned.
  rewrite List.filter_app. cbn. apply app_nil_r.
Qed.

(** With a repository path, [run_git_command] starts [git args] there,
    once, with a timeout of 30 seconds, and returns its standard output
    if it exits with code 0; otherwise it emits one error and returns
    [None]. *)
Lemma run_git_command_root
    (self : GitManager) (args : list (list N)) (w : world)
    (log : list event) :
  truthy_opt (repo_path self) = true ->
  exists errors,
    run_git_command self args (w, log)
    = (succeeded (command_outcome self args w),
       (snd (subprocess_run (lit "git" :: args)
               (default [] (repo_path self)) 30 w),
        log ++ spawn (lit "git" :: args) (default [] (repo_path self)) 30
            :: errors))
    /\ spawned errors = []
    /\ published errors = []
    /\ (errors = [] <-> is_Some (succeeded (command_outcome self args w))).
Proof.
  intros H. unfold Git.run_git_command, GitSpec.command_outcome.
  rewrite H. cbn [negb]. unfold bind, subprocess, succeeded.
  destruct (subprocess_run _ _ _ w) as [[rc out err|msg] w'] eqn:E;
    cbn [fst snd].
  - destruct (rc =? 0)%Z.
    + exists []. unfold ret. repeat split; try reflexivity; eauto.
    + exists [error_occurred err]. unfold emit, ret.
      rewrite <- app_assoc.
      repeat split; try reflexivity; try discriminate.
      intros [? ?]; discriminate.
  - exists [error_occurred msg]. unfold emit, ret.
    rewrite <- app_assoc.
    repeat split; try reflexivity; try discriminate.
    intros [? ?]; discriminate.
Qed.

(** The value [run_git_command] returns. *)
Lemma run_git_command_result
    (self : GitManager) (args : list (list N)) (s : world * list event) :
  fst (run_git_command self args s)
  = succeeded (command_outcome self args (fst s)).
Proof.
  destruct s as [w log].
  destruct (truthy_opt (repo_path self)) eqn:H.
  - destruct (run_git_command_root self args w log H) as (errs & -> & _).
    reflexivity.
  - rewrite (run_git_command_unset self args w log H).
    unfold GitSpec.command_outcome. now rewrite H.
Qed.

(** *** get_status *)

Lemma dom_get_status_line (status : gmap (list N) (list (list N)))
    (line : str) :
  dom (get_status_line status line) = dom status.
Proof.
  unfold get_status_line, append_to.
  repeat (match goal with |- context [if ?b then _ else _] => destruct b end);
    try reflexivity; apply dom_alter_L.
Qed.

Lemma dom_get_status_lines (lines : list (list N))
    (status : gmap (list N) (list (list N))) :
  dom (foldl get_status_line status lines) = dom status.
Proof.
  revert status. induction lines as [|line lines IH]; intros status;
    [reflexivity|].
  cbn [foldl]. rewrite IH. apply dom_get_status_line.
Qed.

Lemma dom_empty_status : dom empty_status = list_to_set buckets.
Proof.
  unfold empty_status, buckets. rewrite dom_list_to_map_L. reflexivity.
Qed.

(** One line of the loop follows the classification table: the path,
    the line from its fourth character on, is appended to the bucket of
    the code, the first two characters; a line with another code and an
    empty line change nothing. *)
Lemma get_status_line_table (status : gmap (list N) (list (list N)))
    (line : str) :
  get_status_line status line
  = match line, bucket_of (take 2 line) with
    | _ :: _, Some bucket => append_to bucket (drop 3 line) status
    | _, _ => status
    end.
Proof.
  unfold get_status_line, bucket_of.
  destruct line as [|c line]; [reflexivity|]. cbn [truthy negb].
  destruct (decide (take 2 (c :: line) = lit " M")) as [E|E].
  - rewrite decide_True by now left. reflexivity.
  - destruct (decide (take 2 (c :: line) = lit "M ")) as [E'|E'].
    + rewrite decide_True by now right. reflexivity.
    + rewrite decide_False by (now intros [?|?]).
      repeat (match goal with
              | |- context [decide ?P] => destruct (decide P)
              end; try reflexivity).
Qed.

(** Appending to a bucket changes that bucket only. *)
Lemma append_to_lookup (bucket filepath key : str)
    (status : gmap (list N) (list (list N))) :
  append_to bucket filepath status !! key
  = if decide (bucket = key)
    then (fun paths => paths ++ [filepath]) <$> status !! key
    else status !! key.
Proof.
  unfold append_to. destruct (decide (bucket = key)) as [->|Hne].
  - apply lookup_alter_eq.
  - now apply lookup_alter_ne.
Qed.

(** [get_status] in terms of the outcome of its command. *)
Lemma get_status_unfold (self : GitManager) (s : world * list event) :
  get_status self s
  = match run_git_command self status_args s with
    | (None, s') => (∅, s')
    | (Some output, (w', log')) =>
        let status :=
          foldl get_status_line empty_status (split 10 (strip output)) in
        (status, (w', log' ++ [status_updated status]))
    end.
Proof.
  unfold Git.get_status, bind, status_args.
  destruct (Git.run_git_command _ _ _ _ s) as [[output|] [w' log']];
    reflexivity.
Qed.

Lemma published_app (es es' : list event) :
  published (es ++ es') = published es ++ published es'.
Proof. apply List.filter_app. Qed.

(** C10.  When the status command fails (no repository path, an exit
    code other than 0, or a process that cannot be run), [get_status]
    returns the empty dict, which has none of the four keys, and publishes
    no status; when the command succeeds it returns a dict with exactly
    the four keys and publishes it, once. *)
Theorem get_status_failure
    (self : GitManager) (w : world) (log : list event) :
  match succeeded (command_outcome self status_args w) with
  | None =>
      fst (get_status self (w, log)) = ∅
      /\ Forall (fun key => fst (get_status self (w, log)) !! key = None)
           buckets
      /\ published (snd (snd (get_status self (w, log)))) = published log
  | Some stdout =>
      dom (fst (get_status self (w, log))) = list_to_set buckets
      /\ published (snd (snd (get_status self (w, log))))
         = published log ++ [status_updated (fst (get_status self (w, log)))]
  end.
Proof.
  rewrite get_status_unfold.
  destruct (truthy_opt (repo_path self)) eqn:H.
  - destruct (run_git_command_root self status_args w log H)
      as (errs & -> & _ & Hpub & _).
    destruct (succeeded _) as [stdout|]; cbn [fst snd].
    + split.
      * rewrite dom_get_status_lines. apply dom_empty_status.
      * rewrite !published_app.
        change (published (spawn ?[a] ?[b] ?[c] :: errs))
          with (published errs).
        rewrite Hpub. now rewrite app_nil_r.
    + repeat split.
      * repeat constructor.
      * rewrite published_app.
        change (published (spawn ?[a] ?[b] ?[c] :: errs))
          with (published errs).
        rewrite Hpub. now rewrite app_nil_r.
  - rewrite (run_git_command_unset self status_args w log H).
    unfold GitSpec.command_outcome. rewrite H. cbn [succeeded fst snd].
    repeat split.
    + repeat constructor.
    + rewrite published_app. cbn. now rewrite app_nil_r.
Qed.

(** *** get_branch *)

Lemma get_branch_unfold (self : GitManager) (s : world * list event) :
  get_branch self s
  = (match fst (run_git_command self branch_args s) with
     | Some (c :: output) => strip (c :: output)
     | _ => lit "unknown"
     end,
     snd (run_git_command self branch_args s)).
Proof.
  unfold Git.get_branch, bind, ret, branch_args.
  destruct (Git.run_git_command _ _ _ _ s) as [[[|c output]|] s'];
    reflexivity.
Qed.

(** C4, as amended.  [get_branch] returns "unknown" when the branch
    command failed or printed nothing, and otherwise the output stripped
    of surrounding white space; so it returns "unknown" exactly when the
    command failed, printed nothing, or printed "unknown" surrounded by
    white space. *)
Theorem get_branch_unknown_iff (self : GitManager) (s : world * list event) :
  fst (get_branch self s)
  = match succeeded (command_outcome self branch_args (fst s)) with
    | Some (c :: output) => strip (c :: output)
    | _ => lit "unknown"
    end
  /\ (fst (get_branch self s) = lit "unknown"
      <-> succeeded (command_outcome self branch_args (fst s)) = None
          \/ succeeded (command_outcome self branch_args (fst s)) = Some []
          \/ exists output,
               succeeded (command_outcome self branch_args (fst s))
                 = Some output
               /\ strip output = lit "unknown").
Proof.
  rewrite get_branch_unfold. cbn [fst].
  rewrite run_git_command_result.
  split; [reflexivity|].
  destruct (succeeded _) as [[|c output]|].
  - split; auto.
  - split.
    + intros H. right. right. eauto.
    + intros [H|[H|(o & H & Ho)]]; try discriminate.
      now injection H as <-.
  - split; auto.
Qed.

(** *** push and pull *)

Lemma push_unfold (self : GitManager) (remote branch : option (list N))
    (s : world * list event) :
  push self remote branch s
  = match run_git_command self
            [lit "push"; default (lit "origin") remote;
             chosen_branch world subprocess_run self branch s]
            (after_branch world subprocess_run self branch s) with
    | (Some _, (w', log')) =>
        (tt, (w', log' ++ [output_ready
                             (lit "Pushed to "
                                ++ default (lit "origin") remote ++ lit "/"
                                ++ chosen_branch world subprocess_run
                                     self branch s)]))
    | (None, s') => (tt, s')
    end.
Proof.
  unfold Git.push, bind, chosen_branch, after_branch.
  destruct branch as [b|].
  - unfold ret at 1.
    destruct (Git.run_git_command _ _ _ _ s) as [[out|] [w' log']];
      reflexivity.
  - destruct (Git.get_branch _ _ _ s) as [b s1]. cbn [fst snd].
    destruct (Git.run_git_command _ _ _ _ s1) as [[out|] [w' log']];
      reflexivity.
Qed.

(** [get_status] only adds events. *)
Lemma get_status_log (self : GitManager) (w : world) (log : list event) :
  exists new, snd (snd (get_status self (w, log))) = log ++ new.
Proof.
  rewrite get_status_unfold.
  destruct (truthy_opt (repo_path self)) eqn:H.
  - destruct (run_git_command_root self status_args w log H)
      as (errs & -> & _).
    destruct (succeeded _); cbn [fst snd]; eexists.
    + rewrite <- app_assoc. reflexivity.
    + reflexivity.
  - rewrite (run_git_command_unset self status_args w log H). cbn.
    eexists. reflexivity.
Qed.

Lemma pull_unfold (self : GitManager) (remote branch : option (list N))
    (s : world * list event) :
  pull self remote branch s
  = match run_git_command self
            [lit "pull"; default (lit "origin") remote;
             chosen_branch world subprocess_run self branch s]
            (after_branch world subprocess_run self branch s) with
    | (Some _, (w', log')) =>
        (tt, snd (get_status self
                    (w', log' ++ [output_ready
                                    (lit "Pulled from "
                                       ++ default (lit "origin") remote
                                       ++ lit "/"
                                       ++ chosen_branch world subprocess_run
                                            self branch s)])))
    | (None, s') => (tt, s')
    end.
Proof.
  unfold Git.pull, bind, chosen_branch, after_branch.
  destruct branch as [b|].
  - unfold ret at 1.
    destruct (Git.run_git_command _ _ _ _ s) as [[out|] [w' log']];
      [|reflexivity].
    unfold emit, ret.
    destruct (Git.get_status _ _ _ _) as [st s']. reflexivity.
  - destruct (Git.get_branch _ _ _ s) as [b s1]. cbn [fst snd].
    destruct (Git.run_git_command _ _ _ _ s1) as [[out|] [w' log']];
      [|reflexivity].
    unfold emit, ret.
    destruct (Git.get_status _ _ _ _) as [st s']. reflexivity.
Qed.

(** C8.  In a configured repository, [push] and [pull] start
    [git push] and [git pull] with two arguments: the remote supplied, or
    "origin" when none is, and the branch supplied, or, when none is, what
    [get_branch] returns in the state of the call.  That [get_branch] is
    part of the call: it starts [git branch --show-current] before the
    command itself, so nothing is remembered from earlier calls. *)
Theorem push_pull_arguments
    (self : GitManager) (remote branch : option (list N)) (w : world)
    (log : list event) :
  truthy_opt (repo_path self) = true ->
  (exists rest,
     snd (snd (push self remote branch (w, log)))
     = snd (after_branch world subprocess_run self branch (w, log))
         ++ spawn [lit "git"; lit "push"; default (lit "origin") remote;
                   chosen_branch world subprocess_run self branch (w, log)]
              (default [] (repo_path self)) 30
         :: rest
     /\ spawned rest = [])
  /\ (exists rest,
       snd (snd (pull self remote branch (w, log)))
       = snd (after_branch world subprocess_run self branch (w, log))
           ++ spawn [lit "git"; lit "pull"; default (lit "origin") remote;
                     chosen_branch world subprocess_run self branch (w, log)]
                (default [] (repo_path self)) 30
           :: rest)
  /\ match branch with
     | Some b =>
         chosen_branch world subprocess_run self branch (w, log) = b
         /\ after_branch world subprocess_run self branch (w, log) = (w, log)
     | None =>
         chosen_branch world subprocess_run self branch (w, log)
         = fst (get_branch self (w, log))
         /\ exists errors,
             snd (after_branch world subprocess_run self branch (w, log))
             = log ++ spawn (lit "git" :: branch_args)
                        (default [] (repo_path self)) 30
                   :: errors
             /\ spawned errors = []
     end.
Proof.
  intros H. split; [|split].
  - rewrite push_unfold.
    destruct (after_branch _ _ self branch (w, log)) as [w1 log1].
    destruct (run_git_command_root self
                [lit "push"; default (lit "origin") remote;
                 chosen_branch world subprocess_run self branch (w, log)]
                w1 log1 H) as (errs & -> & Hsp & _).
    destruct (succeeded _); cbn [snd].
    + exists (errs ++ [output_ready
                         (lit "Pushed to " ++ default (lit "origin") remote
                            ++ lit "/"
                            ++ chosen_branch world subprocess_run self
                                 branch (w, log))]).
      split; [now rewrite <- app_assoc|].
      unfold spawned in *. rewrite List.filter_app, Hsp. reflexivity.
    + exists errs. auto.
  - rewrite pull_unfold.
    destruct (after_branch _ _ self branch (w, log)) as [w1 log1].
    destruct (run_git_command_root self
                [lit "pull"; default (lit "origin") remote;
                 chosen_branch world subprocess_run self branch (w, log)]
                w1 log1 H) as (errs & -> & _).
    destruct (succeeded _); cbn [snd].
    + match goal with
      | |- context [Git.get_status _ _ _ (?w', ?l)] =>
          destruct (get_status_log self w' l) as [new ->]
      end.
      eexists. rewrite <- !app_assoc. cbn [app]. reflexivity.
    + exists errs. reflexivity.
  - destruct branch as [b|]; cbn [chosen_branch after_branch]; [auto|].
    split; [reflexivity|].
    rewrite get_branch_unfold. cbn [snd].
    destruct (run_git_command_root self branch_args w log H)
      as (errs & -> & Hsp & _).
    exists errs. auto.
Qed.

End Manager.

(** C7 at a manager created without a path, in a world where [git] would
    succeed. *)
Lemma run_git_command_no_root_witness :
  Git.run_git_command unit (always (Completed 0 (lit "main") []))
    {| repo_path := None |} branch_args (tt, [])
  = (None, (tt, [] ++ [error_occurred (lit "No repository path set")]))
  /\ spawned (snd (snd (Git.run_git_command unit
                          (always (Completed 0 (lit "main") []))
                          {| repo_path := None |} branch_args (tt, []))))
     = spawned [].
Proof.
  apply (run_git_command_no_root unit (always (Completed 0 (lit "main") []))
           {| repo_path := None |} branch_args tt []).
  reflexivity.
Defined.

(** C8 at a manager with a repository whose current branch is "main":
    [push()] asks for the branch, then pushes it to "origin". *)
Lemma push_pull_arguments_witness :
  exists rest,
    snd (snd (Git.push unit (always (Completed 0 (lit "main" ++ nl) []))
                repo None None (tt, [])))
    = [spawn (lit "git" :: branch_args) (lit "/repo") 30;
       spawn [lit "git"; lit "push"; lit "origin"; lit "main"]
         (lit "/repo") 30] ++ rest.
Proof.
  destruct (push_pull_arguments unit
              (always (Completed 0 (lit "main" ++ nl) [])) repo None None
              tt [] eq_refl) as [(rest & Hpush & _) _].
  exists rest. rewrite Hpush. reflexivity.
Defined.

(** C4, as stated, fails for a branch named "unknown": the command prints
    "unknown" and a line feed, which is not empty, and [get_branch]
    returns "unknown". *)
Lemma get_branch_unknown_with_output :
  succeeded (GitSpec.command_outcome unit
               (always (Completed 0 (lit "unknown" ++ nl) []))
               repo branch_args tt)
  = Some (lit "unknown" ++ nl)
  /\ lit "unknown" ++ nl <> []
  /\ fst (Git.get_branch unit
            (always (Completed 0 (lit "unknown" ++ nl) [])) repo (tt, []))
     = lit "unknown".
Proof.
  split; [vm_compute; reflexivity|].
  split; [discriminate|].
  vm_compute. reflexivity.
Qed.

(** C2, on the scenario of the specification.  The status command prints
    the four lines " M a.txt", "?? b.txt", "A  c.txt", "D  d.txt".
    [get_status] strips the whole output before it splits it into lines,
    which takes the leading space of the first line away: the line is
    read as "M a.txt", its code as "M " and its path, from the fourth
    character on, as ".txt".  The three other lines are read as printed. *)
Theorem get_status_scenario :
  let status :=
    fst (Git.get_status unit
           (always (Completed 0
                      (printed [lit " M a.txt"; lit "?? b.txt";
                                lit "A  c.txt"; lit "D  d.txt"]) []))
           repo (tt, [])) in
  status !! lit "modified" = Some [lit ".txt"]
  /\ status !! lit "untracked" = Some [lit "b.txt"]
  /\ status !! lit "added" = Some [lit "c.txt"]
  /\ status !! lit "deleted" = Some [lit "d.txt"].
Proof. vm_compute. repeat split. Qed.

(** The same four lines with " M a.txt" in second place are all read as
    printed. *)
Lemma get_status_scenario_reordered :
  let status :=
    fst (Git.get_status unit
           (always (Completed 0
                      (printed [lit "?? b.txt"; lit " M a.txt";
                                lit "A  c.txt"; lit "D  d.txt"]) []))
           repo (tt, [])) in
  status !! lit "modified" = Some [lit "a.txt"]
  /\ status !! lit "untracked" = Some [lit "b.txt"]
  /\ status !! lit "added" = Some [lit "c.txt"]
  /\ status !! lit "deleted" = Some [lit "d.txt"].
Proof. vm_compute. repeat split. Qed.

(** What [strip] does to the output of the scenario. *)
Lemma strip_scenario :
  split 10 (strip (printed [lit " M a.txt"; lit "?? b.txt";
                            lit "A  c.txt"; lit "D  d.txt"]))
  = [lit "M a.txt"; lit "?? b.txt"; lit "A  c.txt"; lit "D  d.txt"].
Proof. vm_compute. reflexivity. Qed.

End GitFacts.

(** ** The workers: signals and requests *)

Module WorkerFacts.
Import AppSpec StudioSpec.

(** Decide the comparisons of literals in the goal by computation. *)
Ltac decide_literals :=
  repeat first
    [ rewrite decide_True by reflexivity
    | rewrite decide_False by StudioFacts.by_computation ].

Lemma MODELS_type (name : str) (c : Studio.conf) :
  Studio.MODELS !! name = Some c ->
  Studio.type c = lit "gemini" \/ Studio.type c = lit "openai"
  \/ Studio.type c = lit "anthropic".
Proof.
  revert name c.
  change (map_Forall
            (fun _ c => Studio.type c = lit "gemini"
                        \/ Studio.type c = lit "openai"
                        \/ Studio.type c = lit "anthropic")
            Studio.MODELS).
  apply (bool_decide_unpack _). now vm_compute.
Qed.

(** The [try] block of the refactor worker always emits: it ends with a
    text or an exception, and it sends at most one request. *)
Lemma emitted_text_shape (s : sdk)
    (settings environ : gmap (list N) (list N))
    (self : Studio.RefactorWorker) :
  exists sent outcome,
    Studio.emitted_text s settings environ self = (sent, outcome)
    /\ (length sent <= 1)%nat
    /\ outcome <> Ok None.
Proof.
  unfold Studio.emitted_text, Studio.create.
  destruct (Studio.MODELS !! Studio.model_name self) as [c|] eqn:Hm.
  - cbn zeta.
    destruct (truthy (Studio.get_key settings environ (Studio.type c)));
      cbn [negb].
    + destruct (MODELS_type _ _ Hm) as [Ht|[Ht|Ht]]; rewrite !Ht;
        decide_literals; cbn [lift wbind];
        unfold send, wbind, lift, wret, first.
      * destruct (generate_content s _ _ _) as [text|e];
          eexists _, _; (split; [reflexivity|]); split; cbn; (lia || congruence).
      * destruct (chat_completions_create s _ _ _ _) as [[|text l]|e];
          eexists _, _; (split; [reflexivity|]); split; cbn; (lia || congruence).
      * destruct (messages_create s _ _ _ _) as [[|text l]|e];
          eexists _, _; (split; [reflexivity|]); split; cbn; (lia || congruence).
    + eexists _, _. split; [reflexivity|]. split; cbn; (lia || congruence).
  - eexists _, _. split; [reflexivity|]. split; cbn; (lia || congruence).
Qed.

Lemma calls_sent (sent : list request) (rest : list event) :
  calls (List.map Call sent ++ rest) = List.map Call sent ++ calls rest.
Proof.
  unfold calls. rewrite List.filter_app. f_equal.
  induction sent as [|rq sent IH]; [reflexivity|].
  cbn. now rewrite IH.
Qed.

(** Whatever the model name, the credentials and the SDK do, the refactor
    worker emits exactly one signal, [finished] or [error], and sends at
    most one request. *)
Theorem refactor_worker_one_signal (s : sdk)
    (settings environ : gmap (list N) (list N))
    (self : Studio.RefactorWorker) :
  (exists sig,
     signals (Studio.run s settings environ self) = [sig]
     /\ is_signal sig = true)
  /\ (length (calls (Studio.run s settings environ self)) <= 1)%nat.
Proof.
  destruct (emitted_text_shape s settings environ self)
    as (sent & outcome & E & Hlen & Hsome).
  split.
  - rewrite StudioFacts.run_signals, E. cbn [snd].
    destruct outcome as [[text|]|e]; [| congruence |]; eexists; eauto.
  - unfold Studio.run. rewrite E.
    destruct outcome as [[text|]|e];
      [| rewrite <- (app_nil_r (List.map Call sent)) |];
      rewrite calls_sent; cbn [calls List.filter is_call];
      rewrite ?app_nil_r, length_map; exact Hlen.
Qed.

Lemma response_text_shape (s : sdk) (self : App.AIWorker) :
  exists sent outcome,
    App.response_text s self = (sent, outcome) /\ (length sent <= 1)%nat.
Proof.
  unfold App.response_text, getitem.
  repeat match goal with
         | |- context [decide ?P] => destruct (decide P)
         | |- context [?m !! ?k] =>
             match type of (m !! k) with
             | option _ => destruct (m !! k) as [?|]
             end
         end;
    cbn [lift wbind]; unfold send, wbind, lift, wret, first;
    repeat match goal with
           | |- context [generate_content ?a ?b ?c ?d] =>
               destruct (generate_content a b c d)
           | |- context [chat_completions_create ?a ?b ?c ?d ?e] =>
               destruct (chat_completions_create a b c d e) as [[|? ?]|?]
           | |- context [messages_create ?a ?b ?c ?d ?e] =>
               destruct (messages_create a b c d e) as [[|? ?]|?]
           end;
    eexists _, _; (split; [reflexivity|]); cbn; lia.
Qed.

(** Whatever the provider, the keys and the SDK do, [AIWorker.run] emits
    exactly one signal, [finished] or [error], and sends at most one
    request; for a provider that is none of the five it sends nothing and
    emits [finished] with the empty text. *)
Theorem ai_worker_one_signal (s : sdk) (self : App.AIWorker) :
  (exists sig, signals (App.run s self) = [sig] /\ is_signal sig = true)
  /\ (length (calls (App.run s self)) <= 1)%nat
  /\ (App.w_provider self ∈ App.providers
      \/ App.run s self = [Finished []]).
Proof.
  split; [|split].
  - unfold App.run. rewrite AppFacts.try_emit_signals.
    destruct (snd (App.response_text s self)); eexists; eauto.
  - destruct (response_text_shape s self) as (sent & outcome & E & Hlen).
    unfold App.run, try_emit. rewrite E.
    destruct outcome; rewrite calls_sent; cbn [calls List.filter is_call];
      rewrite app_nil_r, length_map; exact Hlen.
  - unfold App.run, App.response_text, App.providers.
    destruct (decide (App.w_provider self = lit "gemini")) as [->|H1].
    { left. apply list_elem_of_In. cbn [In]. tauto. }
    destruct (decide (App.w_provider self
                      ∈ [lit "openai"; lit "deepseek"; lit "perplexity"]))
      as [Hin|H2].
    { left. apply list_elem_of_In. apply list_elem_of_In in Hin.
      cbn [In] in *. tauto. }
    destruct (decide (App.w_provider self = lit "anthropic")) as [->|H3].
    { left. apply list_elem_of_In. cbn [In]. tauto. }
    right. reflexivity.
Qed.

(** Delivering the events of a worker that end with a signal leaves the
    refactor button enabled. *)
Lemma deliver_all_snoc (es : list event) (e : event)
    (self : Studio.FullFeatureIDE) :
  fst (Studio.deliver_all (es ++ [e]) self)
  = fst (Studio.deliver e (fst (Studio.deliver_all es self))).
Proof.
  unfold Studio.deliver_all. rewrite foldl_app. cbn [foldl].
  destruct (foldl _ _ es) as [win shown]. cbn [fst].
  destruct (Studio.deliver e win). reflexivity.
Qed.

(** Whenever the refactor button is enabled, a click followed to the end
    of its worker leaves it enabled: blank code starts nothing, and every
    worker ends with a signal whose handler enables the button again,
    whatever the model, the credentials and the SDK do. *)
Theorem click_refactor_keeps_button (s : sdk)
    (settings environ : gmap (list N) (list N))
    (self : Studio.FullFeatureIDE) :
  Studio.btn_refactor_enabled self = true ->
  Studio.btn_refactor_enabled
    (fst (fst (Studio.click_refactor s settings environ self))) = true.
Proof.
  intros Hen. unfold Studio.click_refactor. rewrite Hen.
  unfold Studio.refactor_code.
  destruct (truthy (strip (Studio.editor self))); cbn [negb].
  - set (w := {| Studio.model_name := _ |}).
    destruct (emitted_text_shape s settings environ w)
      as (sent & outcome & E & _ & Hsome).
    unfold Studio.run. rewrite E.
    destruct outcome as [[text|]|e]; [| congruence |];
      match goal with
      | |- context [Studio.deliver_all (?es ++ [?e]) ?win] =>
          pose proof (deliver_all_snoc es e win) as Hd;
          destruct (Studio.deliver_all (es ++ [e]) win) as [win' shown']
      end;
      cbn [fst] in *; rewrite Hd;
      now apply StudioFacts.deliver_enables.
  - exact Hen.
Qed.

(** The theorem at a window with code, no credential and an SDK that
    raises. *)
Lemma click_refactor_keeps_button_witness :
  Studio.btn_refactor_enabled
    (fst (fst (Studio.click_refactor (sdk_raising (lit "boom")) ∅ ∅
                 (ide (lit "x = 1") (lit "GPT-4o"))))) = true.
Proof.
  apply (click_refactor_keeps_button (sdk_raising (lit "boom")) ∅ ∅
           (ide (lit "x = 1") (lit "GPT-4o"))).
  reflexivity.
Defined.

End WorkerFacts.

(** ** app.py: a run from click to answer *)

Module RunFacts.
Import App AppSpec AppSpec2.

Lemma run_ai_started
    (settings environ : gmap (list N) (list N)) (self : TunnerSuite)
    (content : str) (info : model_info) :
  content_of self = Some content ->
  truthy (strip content) = true ->
  MODELS_CONFIG !! model_box_currentText self = Some info ->
  truthy_opt (credential settings environ (provider info)) = true ->
  run_ai settings environ self
  = Ok (busy self (worker_for settings environ self content info),
        [start (worker_for settings environ self content info)]).
Proof.
  intros Hc Hs Hm Hk.
  assert (Hk' : truthy_opt (mjoin (get_keys settings environ
                                     !! provider info)) = true).
  { now rewrite (AppFacts.get_keys_lookup _ _ _
                   (AppFacts.MODELS_CONFIG_provider _ _ Hm)). }
  unfold run_ai, content_of in *.
  destruct (decide (current_mode self = lit "code")).
  - unfold busy. rewrite Hc. cbn [rbind]. rewrite Hs. cbn [negb].
    unfold getitem. rewrite Hm. cbn [rbind]. rewrite Hk'. reflexivity.
  - injection Hc as <-. cbn [rbind]. rewrite Hs. cbn [negb].
    unfold getitem. rewrite Hm. cbn [rbind]. rewrite Hk'. reflexivity.
Qed.

Lemma deliver_all_calls (sent : list request) (rest : list event)
    (self : TunnerSuite) :
  deliver_all (List.map Call sent ++ rest) self = deliver_all rest self.
Proof.
  unfold deliver_all. rewrite foldl_app.
  replace (foldl _ (self, []) (List.map Call sent))
    with (self, @nil ui_event); [reflexivity|].
  induction sent as [|rq sent IH]; [reflexivity|]. exact IH.
Qed.

(** With a content that is not blank, a model of the table and a
    credential for its provider, [run_ai] starts exactly one worker,
    which carries the mode, the instruction, all of the content as it is
    (neither stripped nor truncated) and the five resolved keys; the
    window shows progress and its run button is disabled. *)
Theorem run_ai_starts_worker
    (settings environ : gmap (list N) (list N)) (self : TunnerSuite)
    (content : str) (info : model_info) :
  content_of self = Some content ->
  truthy (strip content) = true ->
  MODELS_CONFIG !! model_box_currentText self = Some info ->
  truthy_opt (credential settings environ (provider info)) = true ->
  exists win w,
    run_ai settings environ self = Ok (win, [start w])
    /\ worker win = Some w
    /\ btn_run_enabled win = false
    /\ progress_visible win = true
    /\ w_content w = content
    /\ w_instruction w = ai_input self
    /\ w_mode w = current_mode self
    /\ w_provider w = provider info
    /\ w_model_id w = model_id info
    /\ dom (w_api_keys w) = list_to_set providers.
Proof.
  intros Hc Hs Hm Hk.
  exists (busy self (worker_for settings environ self content info)),
         (worker_for settings environ self content info).
  split; [now apply run_ai_started|].
  repeat split.
Qed.

(** The theorem at a window with a document, the key "k" stored for
    "gemini" and a Gemini model selected. *)
Lemma run_ai_starts_worker_witness :
  exists win w,
    run_ai (stored (lit "gemini") (lit "k")) ∅
      (suite (lit "edu") (lit "notes") (lit "Google: Gemini 2.5 Flash"))
    = Ok (win, [start w])
    /\ worker win = Some w
    /\ btn_run_enabled win = false
    /\ progress_visible win = true
    /\ w_content w = lit "notes"
    /\ w_instruction w = lit "Summarize this"
    /\ w_mode w = lit "edu"
    /\ w_provider w = lit "gemini"
    /\ w_model_id w = lit "gemini-2.5-flash"
    /\ dom (w_api_keys w) = list_to_set providers.
Proof.
  refine (run_ai_starts_worker (stored (lit "gemini") (lit "k")) ∅
            (suite (lit "edu") (lit "notes")
               (lit "Google: Gemini 2.5 Flash"))
            (lit "notes")
            {| provider := lit "gemini";
               model_id := lit "gemini-2.5-flash" |} _ _ _ _).
  - reflexivity.
  - reflexivity.
  - vm_compute. reflexivity.
  - vm_compute. reflexivity.
Defined.

(** A click on the enabled run button whose worker gets an answer: the
    answer is emitted as the one signal and shown as the output, the
    progress bar is hidden and the run button is enabled again. *)
Theorem click_run_success
    (s : sdk) (settings environ : gmap (list N) (list N))
    (self : TunnerSuite) (content : str) (info : model_info) (text : str) :
  btn_run_enabled self = true ->
  content_of self = Some content ->
  truthy (strip content) = true ->
  MODELS_CONFIG !! model_box_currentText self = Some info ->
  truthy_opt (credential settings environ (provider info)) = true ->
  snd (response_text s (worker_for settings environ self content info))
    = Ok text ->
  exists win es,
    click_run s settings environ self
    = Ok (win, [start (worker_for settings environ self content info)], es)
    /\ signals es = [Finished text]
    /\ ai_output win = text
    /\ btn_run_enabled win = true
    /\ progress_visible win = false.
Proof.
  intros Hen Hc Hs Hm Hk Hr.
  unfold click_run. rewrite Hen.
  rewrite (run_ai_started _ _ _ _ _ Hc Hs Hm Hk). cbn [rbind].
  set (w := worker_for settings environ self content info) in *.
  assert (Hsig : signals (run s w) = [Finished text]).
  { unfold run. now rewrite AppFacts.try_emit_signals, Hr. }
  unfold run in *. unfold try_emit in *.
  destruct (response_text s w) as [sent outcome]. cbn [snd] in Hr.
  subst outcome. rewrite deliver_all_calls. cbn.
  eexists _, _. split; [reflexivity|]. auto.
Qed.

(** The theorem at a window with a document, a stored key and an SDK that
    answers "ok". *)
Lemma click_run_success_witness :
  exists win es,
    click_run (sdk_answering (lit "ok")) (stored (lit "gemini") (lit "k")) ∅
      (suite (lit "edu") (lit "notes") (lit "Google: Gemini 2.5 Flash"))
    = Ok (win,
          [start (worker_for (stored (lit "gemini") (lit "k")) ∅
                    (suite (lit "edu") (lit "notes")
                       (lit "Google: Gemini 2.5 Flash"))
                    (lit "notes")
                    {| provider := lit "gemini";
                       model_id := lit "gemini-2.5-flash" |})], es)
    /\ signals es = [Finished (lit "ok")]
    /\ ai_output win = lit "ok"
    /\ btn_run_enabled win = true
    /\ progress_visible win = false.
Proof.
  refine (click_run_success (sdk_answering (lit "ok"))
            (stored (lit "gemini") (lit "k")) ∅
            (suite (lit "edu") (lit "notes")
               (lit "Google: Gemini 2.5 Flash"))
            (lit "notes")
            {| provider := lit "gemini";
               model_id := lit "gemini-2.5-flash" |}
            (lit "ok") _ _ _ _ _ _).
  - reflexivity.
  - reflexivity.
  - reflexivity.
  - vm_compute. reflexivity.
  - vm_compute. reflexivity.
  - vm_compute. reflexivity.
Defined.

End RunFacts.

(** ** Prompts, blank input and credentials *)

Module PromptFacts.
Import AppSpec StudioSpec.

(** Replace the lengths of the literals in the goal by their values. *)
Ltac literal_lengths :=
  unfold App.indent, Studio.fence, nl;
  repeat match goal with
         | |- context [length (lit ?s)] =>
             let n := eval vm_compute in (length (lit s)) in
             change (length (lit s)) with n
         end;
  cbn [length].

(** The size of the text sent for an [AIWorker] task: 68 characters in
    code mode, 267 in the other mode, plus the instruction, plus the
    content up to the limit of the mode. *)
Theorem full_prompt_length (self : App.AIWorker) :
  length (App.full_prompt self)
  = ((if decide (App.w_mode self = lit "code") then 68 else 267)
     + length (App.w_instruction self)
     + Nat.min (limit (App.w_mode self)) (length (App.w_content self)))%nat.
Proof.
  unfold App.full_prompt, App.sys_prompt, App.user_prompt, limit.
  destruct (decide (App.w_mode self = lit "code"));
    rewrite !length_app, length_take; literal_lengths; lia.
Qed.

(** The refactor prompt holds all of the code, whatever its size: it is
    99 characters longer than the code and twice the language name. *)
Theorem refactor_prompt_length (self : Studio.RefactorWorker) :
  length (Studio.prompt self)
  = (99 + 2 * length (Studio.lang self) + length (Studio.code self))%nat
  /\ exists before after,
       Studio.prompt self = before ++ Studio.code self ++ after
       /\ length before = (26 + 2 * length (Studio.lang self))%nat.
Proof.
  split.
  - unfold Studio.prompt. rewrite !length_app. literal_lengths. lia.
  - exists (lit "Refactor this " ++ Studio.lang self ++ lit " code:" ++ nl
            ++ nl ++ Studio.fence ++ Studio.lang self ++ nl).
    eexists. split.
    + unfold Studio.prompt. rewrite <- !app_assoc. reflexivity.
    + rewrite !length_app. literal_lengths. lia.
Qed.

Lemma lstrip_nil_blank (s : str) : lstrip s = [] -> blank s.
Proof.
  induction s as [|c s IH]; [constructor|]. cbn [lstrip].
  destruct (isspace c) eqn:Hc; [|discriminate].
  intros H. constructor; [exact Hc | exact (IH H)].
Qed.

Lemma lstrip_head (s t : str) (c : N) :
  lstrip s = c :: t -> isspace c = false.
Proof.
  induction s as [|d s IH]; [discriminate|]. cbn [lstrip].
  destruct (isspace d) eqn:Hd; [exact IH|].
  intros H. injection H as -> _. exact Hd.
Qed.

(** [strip] returns the empty string for blank strings only. *)
Lemma strip_nil_blank (s : str) : strip s = [] -> blank s.
Proof.
  unfold strip, rstrip. intros H.
  apply (f_equal (@rev N)) in H. rewrite rev_involutive in H. cbn in H.
  apply lstrip_nil_blank in H. unfold blank in H.
  apply Forall_rev in H. rewrite rev_involutive in H.
  destruct (lstrip s) as [|c t] eqn:E.
  - now apply lstrip_nil_blank.
  - apply lstrip_head in E. inversion H; congruence.
Qed.

(** [run_ai] shows the "Empty" warning exactly for a blank content. *)
Theorem run_ai_warning_iff_blank
    (settings environ : gmap (list N) (list N)) (self : App.TunnerSuite)
    (content : str) :
  content_of self = Some content ->
  (App.run_ai settings environ self = Ok (self, [empty_warning])
   <-> blank content).
Proof.
  intros Hc. split.
  - intros Hrun. apply strip_nil_blank.
    destruct (strip content) as [|c t] eqn:Hs; [reflexivity|]. exfalso.
    unfold App.run_ai, content_of in *.
    destruct (decide (App.current_mode self = lit "code")).
    + rewrite Hc in Hrun. cbn [rbind] in Hrun. rewrite Hs in Hrun.
      cbn [truthy negb] in Hrun. unfold getitem in Hrun.
      destruct (App.MODELS_CONFIG !! _); cbn [rbind] in Hrun;
        [|discriminate].
      destruct (negb _); discriminate.
    + injection Hc as <-. cbn [rbind] in Hrun. rewrite Hs in Hrun.
      cbn [truthy negb] in Hrun. unfold getitem in Hrun.
      destruct (App.MODELS_CONFIG !! _); cbn [rbind] in Hrun;
        [|discriminate].
      destruct (negb _); discriminate.
  - intros Hb. unfold App.run_ai, content_of in *.
    destruct (decide (App.current_mode self = lit "code")).
    + rewrite Hc. cbn [rbind]. now rewrite (strip_blank _ Hb).
    + injection Hc as ->. cbn [rbind]. now rewrite (strip_blank _ Hb).
Qed.

(** The theorem at a window showing the document "notes": no warning. *)
Lemma run_ai_warning_iff_blank_witness :
  App.run_ai ∅ ∅ (suite (lit "edu") (lit "notes") (lit "OpenAI: GPT-4o"))
    = Ok (suite (lit "edu") (lit "notes") (lit "OpenAI: GPT-4o"),
          [empty_warning])
  <-> blank (lit "notes").
Proof.
  apply (run_ai_warning_iff_blank ∅ ∅
           (suite (lit "edu") (lit "notes") (lit "OpenAI: GPT-4o"))
           (lit "notes")).
  reflexivity.
Defined.

(** [refactor_code] starts a worker exactly when the editor is not
    blank.  For a blank editor it starts nothing and leaves the refactor
    button and the worker field as they are; otherwise it starts one
    worker, for the code stripped of surrounding white space, and
    disables the button. *)
Theorem refactor_code_starts_iff_not_blank (self : Studio.FullFeatureIDE) :
  (blank (Studio.editor self)
   /\ snd (Studio.refactor_code self) = []
   /\ Studio.btn_refactor_enabled (fst (Studio.refactor_code self))
      = Studio.btn_refactor_enabled self
   /\ Studio.worker (fst (Studio.refactor_code self)) = Studio.worker self)
  \/ (~ blank (Studio.editor self)
      /\ snd (Studio.refactor_code self) = [Studio.start (worker_of self)]
      /\ Studio.code (worker_of self) = strip (Studio.editor self)
      /\ Studio.btn_refactor_enabled (fst (Studio.refactor_code self))
         = false
      /\ Studio.worker (fst (Studio.refactor_code self))
         = Some (worker_of self)).
Proof.
  unfold Studio.refactor_code.
  destruct (strip (Studio.editor self)) as [|c t] eqn:Hs;
    cbn [truthy negb snd fst].
  - left. split; [now apply strip_nil_blank|]. repeat split.
  - right. split.
    + intros Hb. rewrite (strip_blank _ Hb) in Hs. discriminate.
    + unfold worker_of. rewrite Hs. repeat split.
Qed.

(** [get_keys] has exactly the five providers as keys; the key of a
    provider is its stored setting when that is not empty, and the
    environment variable (which may be missing) otherwise. *)
Theorem get_keys_resolution
    (settings environ : gmap (list N) (list N)) (p : str) :
  App.get_keys settings environ !! p
  = if decide (p ∈ App.providers)
    then Some (if truthy (default [] (settings !! (p ++ lit "_key")))
               then settings !! (p ++ lit "_key")
               else environ !! (upper p ++ lit "_API_KEY"))
    else None.
Proof.
  destruct (decide (p ∈ App.providers)) as [Hin|Hout].
  - rewrite (AppFacts.get_keys_lookup _ _ _ Hin). unfold credential.
    destruct (settings !! (p ++ lit "_key")) as [k|]; [|reflexivity].
    cbn [default]. now destruct (truthy k).
  - unfold App.get_keys, App.providers in *. cbn [foldl].
    repeat (rewrite lookup_insert_ne
              by (intros E; apply Hout; rewrite <- E;
                  apply list_elem_of_In; cbn [In]; auto 10)).
    reflexivity.
Qed.

(** The two programs resolve a credential in opposite orders: with a
    stored setting and an environment variable that are both not empty,
    app.py's [get_keys] takes the setting and main.py's [get_key] takes
    the environment variable. *)
Theorem credential_precedence
    (settings settings' environ : gmap (list N) (list N))
    (p stored_key stored_key' variable : str) :
  p ∈ App.providers ->
  settings !! (p ++ lit "_key") = Some stored_key ->
  settings' !! p = Some stored_key' ->
  environ !! (upper p ++ lit "_API_KEY") = Some variable ->
  truthy stored_key = true ->
  truthy variable = true ->
  App.get_keys settings environ !! p = Some (Some stored_key)
  /\ Studio.get_key settings' environ p = variable.
Proof.
  intros Hin Hs Hs' He Hk Hv. split.
  - rewrite (AppFacts.get_keys_lookup _ _ _ Hin). unfold credential.
    rewrite Hs. simpl. now rewrite Hk.
  - unfold Studio.get_key. rewrite He. cbn [truthy_opt]. now rewrite Hv.
Qed.

(** The theorem for "openai" with "a" stored and "b" in the environment. *)
Lemma credential_precedence_witness :
  App.get_keys {[ lit "openai_key" := lit "a" ]}
    {[ lit "OPENAI_API_KEY" := lit "b" ]} !! lit "openai"
  = Some (Some (lit "a"))
  /\ Studio.get_key {[ lit "openai" := lit "a" ]}
       {[ lit "OPENAI_API_KEY" := lit "b" ]} (lit "openai")
     = lit "b".
Proof.
  refine (credential_precedence {[ lit "openai_key" := lit "a" ]}
            {[ lit "openai" := lit "a" ]}
            {[ lit "OPENAI_API_KEY" := lit "b" ]}
            (lit "openai") (lit "a") (lit "a") (lit "b") _ _ _ _ _ _).
  - apply list_elem_of_In. cbn [In App.providers]. tauto.
  - vm_compute. reflexivity.
  - vm_compute. reflexivity.
  - vm_compute. reflexivity.
  - reflexivity.
  - reflexivity.
Defined.

End PromptFacts.

(** ** GitManager: every method *)

Module GitMore.
Import Git GitSpec GitSpec2.

Section Manager.

Variable world : Type.
Variable subprocess_run :
  list (list N) -> list N -> Z -> world -> run_outcome * world.

Abbreviation run_git_command := (Git.run_git_command world subprocess_run).
Abbreviation get_status := (Git.get_status world subprocess_run).
Abbreviation get_branch := (Git.get_branch world subprocess_run).
Abbreviation add_files := (Git.add_files world subprocess_run).
Abbreviation commit := (Git.commit world subprocess_run).
Abbreviation push := (Git.push world subprocess_run).
Abbreviation pull := (Git.pull world subprocess_run).
Abbreviation get_diff := (Git.get_diff world subprocess_run).
Abbreviation get_log := (Git.get_log world subprocess_run).
Abbreviation command_outcome := (GitSpec.command_outcome world subprocess_run).
Abbreviation tidy := (GitSpec2.tidy world).
Abbreviation idle := (GitSpec2.idle world).

(** [run_git_command] with a repository path, in full. *)
Lemma run_git_command_exact
    (self : GitManager) (args : list (list N)) (w : world)
    (log : list event) :
  truthy_opt (repo_path self) = true ->
  run_git_command self args (w, log)
  = (succeeded (command_outcome self args w),
     (snd (subprocess_run (lit "git" :: args)
             (default [] (repo_path self)) 30 w),
      log ++ spawn (lit "git" :: args) (default [] (repo_path self)) 30
          :: reported (fst (subprocess_run (lit "git" :: args)
                              (default [] (repo_path self)) 30 w)))).
Proof.
  intros H. unfold Git.run_git_command, GitSpec.command_outcome.
  rewrite H. cbn [negb]. unfold bind, subprocess, succeeded, reported.
  destruct (subprocess_run _ _ _ w) as [[rc out err|msg] w'];
    cbn [fst snd]; [destruct (rc =? 0)%Z|]; unfold emit, ret;
    rewrite <- ?app_assoc; reflexivity.
Qed.

(** *** Only git, only in the repository *)

Lemma tidy_ret {A} (self : GitManager) (a : A) : tidy self (ret world a).
Proof. intros w log. exists []. split; [now rewrite app_nil_r | constructor]. Qed.

Lemma tidy_bind {A B} (self : GitManager) (m : M world A)
    (k : A -> M world B) :
  tidy self m -> (forall a, tidy self (k a)) -> tidy self (bind world m k).
Proof.
  intros Hm Hk w log. unfold bind.
  destruct (Hm w log) as (new & E & Hnew).
  destruct (m (w, log)) as [a [w1 log1]]. cbn [snd] in E. subst log1.
  destruct (Hk a w1 (log ++ new)) as (new' & E' & Hnew').
  exists (new ++ new'). split.
  - rewrite E'. now rewrite app_assoc.
  - now apply Forall_app.
Qed.

Lemma tidy_emit (self : GitManager) (e : event) :
  is_spawn e = false -> tidy self (emit world e).
Proof.
  intros He w log. exists [e]. split; [reflexivity|].
  constructor; [|constructor]. destruct e; try exact I. discriminate.
Qed.

Lemma tidy_run_git_command (self : GitManager) (args : list (list N)) :
  tidy self (run_git_command self args).
Proof.
  intros w log. destruct (truthy_opt (repo_path self)) eqn:H.
  - rewrite (run_git_command_exact self args w log H). cbn [snd].
    eexists. split; [reflexivity|]. constructor.
    + cbn. destruct (repo_path self) as [[|c p]|]; try discriminate.
      repeat split; eauto; try discriminate.
    + unfold reported. destruct (fst _) as [rc out err|msg];
        [destruct (rc =? 0)%Z|]; repeat constructor.
  - rewrite (GitFacts.run_git_command_unset _ _ self args w log H).
    eexists. split; [reflexivity|]. repeat constructor.
Qed.

Lemma tidy_get_status (self : GitManager) : tidy self (get_status self).
Proof.
  unfold Git.get_status. apply tidy_bind; [apply tidy_run_git_command|].
  intros [output|]; [|apply tidy_ret].
  cbn zeta. apply tidy_bind; [now apply tidy_emit|].
  intros _. apply tidy_ret.
Qed.

Lemma tidy_get_branch (self : GitManager) : tidy self (get_branch self).
Proof.
  unfold Git.get_branch. apply tidy_bind; [apply tidy_run_git_command|].
  intros output. apply tidy_ret.
Qed.

(** Every process a method of the manager starts is [git] with some
    arguments, run in the configured directory, which is not the empty
    string, with a timeout of 30 seconds; and a method only adds to the
    events, it removes none. *)
Theorem git_only_in_repository (self : GitManager) :
  (forall args, tidy self (run_git_command self args))
  /\ tidy self (get_status self)
  /\ tidy self (get_branch self)
  /\ (forall files, tidy self (add_files self files))
  /\ (forall message, tidy self (commit self message))
  /\ (forall remote branch, tidy self (push self remote branch))
  /\ (forall remote branch, tidy self (pull self remote branch))
  /\ (forall filepath, tidy self (get_diff self filepath))
  /\ (forall count, tidy self (get_log self count)).
Proof.
  repeat split.
  - intros args. apply tidy_run_git_command.
  - apply tidy_get_status.
  - apply tidy_get_branch.
  - intros files. unfold Git.add_files.
    apply tidy_bind; [apply tidy_run_git_command|].
    intros [out|]; [|apply tidy_ret].
    apply tidy_bind; [now apply tidy_emit|]. intros _.
    apply tidy_bind; [apply tidy_get_status|]. intros _. apply tidy_ret.
  - intros message. unfold Git.commit.
    apply tidy_bind; [apply tidy_run_git_command|].
    intros [out|]; [|apply tidy_ret].
    apply tidy_bind; [now apply tidy_emit|]. intros _.
    apply tidy_bind; [apply tidy_get_status|]. intros _. apply tidy_ret.
  - intros remote branch. unfold Git.push. cbn zeta.
    apply tidy_bind.
    { destruct branch; [apply tidy_ret | apply tidy_get_branch]. }
    intros b. apply tidy_bind; [apply tidy_run_git_command|].
    intros [out|]; [now apply tidy_emit | apply tidy_ret].
  - intros remote branch. unfold Git.pull. cbn zeta.
    apply tidy_bind.
    { destruct branch; [apply tidy_ret | apply tidy_get_branch]. }
    intros b. apply tidy_bind; [apply tidy_run_git_command|].
    intros [out|]; [|apply tidy_ret].
    apply tidy_bind; [now apply tidy_emit|]. intros _.
    apply tidy_bind; [apply tidy_get_status|]. intros _. apply tidy_ret.
  - intros filepath. unfold Git.get_diff. apply tidy_run_git_command.
  - intros count. unfold Git.get_log.
    apply tidy_bind; [apply tidy_run_git_command|].
    intros output. apply tidy_ret.
Qed.

(** *** Without a repository path *)

(** Without a repository path no method starts a process or changes the
    world, and each reports "No repository path set" once for every
    command it would have run: once in general, twice for [push] and
    [pull] called without a branch.  The values returned are the empty
    dict, "unknown", the empty string and [None]. *)
Theorem no_repository_path
    (self : GitManager) (w : world) (log : list event) :
  truthy_opt (repo_path self) = false ->
  get_status self (w, log) = (∅, (w, log ++ [no_root]))
  /\ get_branch self (w, log) = (lit "unknown", (w, log ++ [no_root]))
  /\ (forall count, get_log self count (w, log) = ([], (w, log ++ [no_root])))
  /\ (forall filepath,
        get_diff self filepath (w, log) = (None, (w, log ++ [no_root])))
  /\ (forall files,
        add_files self files (w, log) = (tt, (w, log ++ [no_root])))
  /\ (forall message,
        commit self message (w, log) = (tt, (w, log ++ [no_root])))
  /\ (forall remote b,
        push self remote (Some b) (w, log) = (tt, (w, log ++ [no_root]))
        /\ pull self remote (Some b) (w, log) = (tt, (w, log ++ [no_root])))
  /\ (forall remote,
        push self remote None (w, log)
        = (tt, (w, log ++ [no_root; no_root]))
        /\ pull self remote None (w, log)
           = (tt, (w, log ++ [no_root; no_root]))).
Proof.
  intros H.
  assert (E : forall args l,
             run_git_command self args (w, l) = (None, (w, l ++ [no_root]))).
  { intros args l. now apply GitFacts.run_git_command_unset. }
  repeat split; intros;
    unfold Git.get_status, Git.get_log, Git.get_diff,
      Git.add_files, Git.commit, Git.push, Git.pull, bind, ret;
    unfold Git.get_branch, bind, ret;
    rewrite ?E; cbn [fst snd truthy_opt]; rewrite ?E;
    rewrite <- ?app_assoc; reflexivity.
Qed.

(** *** push after a failed branch command *)

(** In a repository, when [git branch --show-current] fails, [push]
    called without a branch reports that failure and then pushes a branch
    named "unknown". *)
Theorem push_unknown_branch
    (self : GitManager) (remote : option (list N)) (w : world)
    (log : list event) :
  truthy_opt (repo_path self) = true ->
  succeeded (command_outcome self branch_args w) = None ->
  exists failure rest,
    snd (snd (push self remote None (w, log)))
    = log
        ++ [spawn (lit "git" :: branch_args)
              (default [] (repo_path self)) 30;
            error_occurred failure;
            spawn [lit "git"; lit "push"; default (lit "origin") remote;
                   lit "unknown"]
              (default [] (repo_path self)) 30]
        ++ rest.
Proof.
  intros H Hfail.
  rewrite GitFacts.push_unfold.
  unfold chosen_branch, after_branch.
  rewrite GitFacts.get_branch_unfold. cbn [fst snd].
  rewrite (run_git_command_exact self branch_args w log H).
  cbn [fst snd]. rewrite Hfail.
  unfold GitSpec.command_outcome in Hfail. rewrite H in Hfail.
  cbn [succeeded] in Hfail.
  set (r := fst (subprocess_run (lit "git" :: branch_args) _ 30 w)) in *.
  assert (Hrep : exists failure, reported r = [error_occurred failure]).
  { unfold reported. destruct r as [rc out err|msg]; [|eauto].
    destruct (rc =? 0)%Z; [discriminate|eauto]. }
  destruct Hrep as [failure ->].
  rewrite (run_git_command_exact self _ _ _ H).
  exists failure.
  destruct (succeeded _); cbn [snd]; eexists;
    rewrite <- !app_assoc; cbn [app]; reflexivity.
Qed.

(** *** commit and add_files *)

Lemma reported_cases (r : run_outcome) :
  match succeeded (Some r) with
  | Some _ => reported r = []
  | None => exists failure, reported r = [error_occurred failure]
  end.
Proof.
  unfold succeeded, reported. destruct r as [rc out err|msg]; [|eauto].
  destruct (rc =? 0)%Z; eauto.
Qed.

Lemma command_outcome_root (self : GitManager) (args : list (list N))
    (w : world) :
  truthy_opt (repo_path self) = true ->
  command_outcome self args w
  = Some (fst (subprocess_run (lit "git" :: args)
                 (default [] (repo_path self)) 30 w)).
Proof. intros H. unfold GitSpec.command_outcome. now rewrite H. Qed.



End Manager.

(** [no_repository_path] at a manager created without a path. *)
Lemma no_repository_path_witness :
  Git.push unit (always (Completed 0 (lit "main") []))
    {| repo_path := None |} None None (tt, [])
  = (tt, (tt, [no_root; no_root])).
Proof.
  destruct (no_repository_path unit (always (Completed 0 (lit "main") []))
              {| repo_path := None |} tt [] eq_refl)
    as (_ & _ & _ & _ & _ & _ & _ & Hpush).
  exact (proj1 (Hpush None)).
Defined.

(** [push_unknown_branch] where every command exits with code 1. *)
Lemma push_unknown_branch_witness :
  exists failure rest,
    snd (snd (Git.push unit (always (Completed 1 [] (lit "fatal")))
                repo None None (tt, [])))
    = [] ++ [spawn (lit "git" :: branch_args) (lit "/repo") 30;
             error_occurred failure;
             spawn [lit "git"; lit "push"; lit "origin"; lit "unknown"]
               (lit "/repo") 30]
         ++ rest.
Proof.
  exact (push_unknown_branch unit (always (Completed 1 [] (lit "fatal")))
           repo None tt [] eq_refl eq_refl).
Defined.


End GitMore.

(** ** get_status: what is filed where *)

Module StatusFacts.
Import Git GitSpec GitSpec2.

Lemma foldl_get_status_line (key : str) (lines : list (list N))
    (status : gmap (list N) (list (list N))) :
  foldl get_status_line status lines !! key
  = (fun filed =>
       filed ++ List.map (drop 3) (List.filter (selects key) lines))
    <$> status !! key.
Proof.
  revert status. induction lines as [|line lines IH]; intros status.
  - cbn. destruct (status !! key); cbn; [now rewrite app_nil_r | reflexivity].
  - cbn [foldl]. rewrite IH, GitFacts.get_status_line_table.
    cbn [List.filter]. unfold selects at 2.
    destruct line as [|c line]; [reflexivity|]. cbn [truthy andb].
    destruct (bucket_of (take 2 (c :: line))) as [bucket|].
    + rewrite GitFacts.append_to_lookup.
      destruct (decide (bucket = key)) as [->|Hne].
      * rewrite bool_decide_eq_true_2 by reflexivity.
        destruct (status !! key); cbn; [|reflexivity].
        now rewrite <- app_assoc.
      * rewrite bool_decide_eq_false_2 by congruence. reflexivity.
    + rewrite bool_decide_eq_false_2 by discriminate. reflexivity.
Qed.

Lemma length_filter_cons {A} (f : A -> bool) (x : A) (l : list A) :
  length (List.filter f (x :: l))
  = (Nat.b2n (f x) + length (List.filter f l))%nat.
Proof. cbn. now destruct (f x). Qed.

(** A line is filed under one key if its code is in the table, under
    none otherwise. *)
Lemma selects_once (line : str) :
  (Nat.b2n (selects (lit "modified") line)
   + Nat.b2n (selects (lit "added") line)
   + Nat.b2n (selects (lit "deleted") line)
   + Nat.b2n (selects (lit "untracked") line))%nat
  = Nat.b2n (recognised line).
Proof.
  unfold selects, recognised. destruct (truthy line); [|reflexivity].
  unfold bucket_of.
  repeat match goal with
         | |- context [decide ?P] => destruct (decide P)
         end; vm_compute; reflexivity.
Qed.

Lemma selects_total (lines : list (list N)) :
  (length (List.filter (selects (lit "modified")) lines)
   + length (List.filter (selects (lit "added")) lines)
   + length (List.filter (selects (lit "deleted")) lines)
   + length (List.filter (selects (lit "untracked")) lines))%nat
  = length (List.filter recognised lines).
Proof.
  induction lines as [|line lines IH]; [reflexivity|].
  rewrite !length_filter_cons, <- IH, <- (selects_once line). lia.
Qed.

Section Manager.

Variable world : Type.
Variable subprocess_run :
  list (list N) -> list N -> Z -> world -> run_outcome * world.

Abbreviation get_status := (Git.get_status world subprocess_run).
Abbreviation command_outcome := (GitSpec.command_outcome world subprocess_run).

Lemma get_status_value (self : GitManager) (w : world) (log : list event)
    (stdout : str) :
  succeeded (command_outcome self status_args w) = Some stdout ->
  fst (get_status self (w, log))
  = foldl get_status_line empty_status (split 10 (strip stdout)).
Proof.
  intros Hs. rewrite GitFacts.get_status_unfold.
  pose proof (GitFacts.run_git_command_result world subprocess_run self
                status_args (w, log)) as Hr.
  cbn [fst] in Hr. rewrite Hs in Hr.
  destruct (Git.run_git_command _ _ _ _ _) as [[output|] [w' log']];
    cbn [fst] in Hr; [|discriminate].
  injection Hr as ->. reflexivity.
Qed.

(** When the status command succeeds, each of the four buckets holds the
    paths (the line from its fourth character on) of exactly the lines of
    the stripped output that are not empty and whose code the table sends
    to that bucket, in the order of the output and with repetitions
    kept. *)
Theorem get_status_buckets (self : GitManager) (w : world)
    (log : list event) (stdout key : str) :
  succeeded (command_outcome self status_args w) = Some stdout ->
  key ∈ buckets ->
  fst (get_status self (w, log)) !! key
  = Some (List.map (drop 3)
            (List.filter (selects key) (split 10 (strip stdout)))).
Proof.
  intros Hs Hkey. rewrite (get_status_value self w log stdout Hs).
  rewrite foldl_get_status_line.
  replace (empty_status !! key) with (Some (@nil (list N))); [reflexivity|].
  apply list_elem_of_In in Hkey. cbn [In buckets] in Hkey.
  destruct Hkey as [<-|[<-|[<-|[<-|[]]]]]; vm_compute; reflexivity.
Qed.

(** When the status command succeeds, the four buckets together hold as
    many paths as the stripped output has lines with a code of the table:
    every such line is filed once, every other line is dropped. *)
Theorem get_status_partition (self : GitManager) (w : world)
    (log : list event) (stdout : str) :
  succeeded (command_outcome self status_args w) = Some stdout ->
  (length (paths (fst (get_status self (w, log))) (lit "modified"))
   + length (paths (fst (get_status self (w, log))) (lit "added"))
   + length (paths (fst (get_status self (w, log))) (lit "deleted"))
   + length (paths (fst (get_status self (w, log))) (lit "untracked")))%nat
  = length (List.filter recognised (split 10 (strip stdout))).
Proof.
  intros Hs. rewrite (get_status_value self w log stdout Hs).
  unfold paths. rewrite !foldl_get_status_line.
  replace (empty_status !! lit "modified") with (Some (@nil (list N)))
    by (vm_compute; reflexivity).
  replace (empty_status !! lit "added") with (Some (@nil (list N)))
    by (vm_compute; reflexivity).
  replace (empty_status !! lit "deleted") with (Some (@nil (list N)))
    by (vm_compute; reflexivity).
  replace (empty_status !! lit "untracked") with (Some (@nil (list N)))
    by (vm_compute; reflexivity).
  cbn [fmap option_fmap option_map default from_option id app].
  rewrite !length_map. apply selects_total.
Qed.

End Manager.

(** [get_status_buckets] for an output of three lines of which two are
    untracked files. *)
Lemma get_status_buckets_witness :
  fst (Git.get_status unit
         (always (Completed 0
                    (printed [lit "?? b.txt"; lit "A  c.txt";
                              lit "?? e.txt"]) []))
         repo (tt, [])) !! lit "untracked"
  = Some [lit "b.txt"; lit "e.txt"].
Proof.
  rewrite (get_status_buckets unit
             (always (Completed 0
                        (printed [lit "?? b.txt"; lit "A  c.txt";
                                  lit "?? e.txt"]) []))
             repo tt []
             (printed [lit "?? b.txt"; lit "A  c.txt"; lit "?? e.txt"])
             (lit "untracked") eq_refl).
  - vm_compute. reflexivity.
  - apply list_elem_of_In. cbn [In buckets]. tauto.
Defined.

(** [get_status_partition] for an output with one line whose code "R " is
    not in the table. *)
Lemma get_status_partition_witness :
  (length (paths (fst (Git.get_status unit
                         (always (Completed 0
                                    (printed [lit "?? b.txt";
                                              lit "R  x -> y"]) []))
                         repo (tt, []))) (lit "modified"))
   + length (paths (fst (Git.get_status unit
                           (always (Completed 0
                                      (printed [lit "?? b.txt";
                                                lit "R  x -> y"]) []))
                           repo (tt, []))) (lit "added"))
   + length (paths (fst (Git.get_status unit
                           (always (Completed 0
                                      (printed [lit "?? b.txt";
                                                lit "R  x -> y"]) []))
                           repo (tt, []))) (lit "deleted"))
   + length (paths (fst (Git.get_status unit
                           (always (Completed 0
                                      (printed [lit "?? b.txt";
                                                lit "R  x -> y"]) []))
                           repo (tt, []))) (lit "untracked")))%nat
  = 1%nat.
Proof.
  rewrite (get_status_partition unit
             (always (Completed 0
                        (printed [lit "?? b.txt"; lit "R  x -> y"]) []))
             repo tt []
             (printed [lit "?? b.txt"; lit "R  x -> y"]) eq_refl).
  vm_compute. reflexivity.
Defined.

End StatusFacts.

(** ** main.py: PythonDebugger *)

Module DebuggerFacts.
Import Debugger DebuggerSpec.

Local Open Scope Z_scope.

(** *** Lines *)

Lemma split_cons (sep : N) (s : str) :
  exists piece pieces, split sep s = piece :: pieces.
Proof.
  induction s as [|c s (p & ps & E)]; cbn [split]; [eauto|].
  destruct (c =? sep)%N; [eauto|]. rewrite E. eauto.
Qed.

Lemma join_cons (sep p q : str) (qs : list (list N)) :
  join sep (p :: q :: qs) = p ++ sep ++ join sep (q :: qs).
Proof. reflexivity. Qed.

(** Joining the lines of a text with line feeds gives the text back. *)
Lemma join_split (s : str) : join nl (split 10 s) = s.
Proof.
  induction s as [|c s IH]; [reflexivity|]. cbn [split].
  destruct (split_cons 10 s) as (p & ps & E). rewrite E in *.
  destruct (c =? 10)%N eqn:Hc.
  - apply N.eqb_eq in Hc. subst c. rewrite join_cons, IH. reflexivity.
  - destruct ps as [|p' ps].
    + cbn [join] in *. now rewrite IH.
    + rewrite join_cons in *. cbn [app]. now rewrite IH.
Qed.

(** *** The insertion loop *)

Lemma instrument_from_app (n : Z) (bps : gset Z) (l1 l2 : list (list N)) :
  instrument_from n bps (l1 ++ l2)
  = instrument_from n bps l1
      ++ instrument_from (n + Z.of_nat (length l1)) bps l2.
Proof.
  revert n. induction l1 as [|x l1 IH]; intros n.
  - cbn. now rewrite Z.add_0_r.
  - cbn [app instrument_from length]. rewrite IH, <- !app_assoc.
    cbn [app]. do 4 f_equal. lia.
Qed.

Lemma instrument_from_ext (n : Z) (bps bps' : gset Z)
    (lines : list (list N)) :
  (forall i, n <= i < n + Z.of_nat (length lines) ->
             (i ∈ bps <-> i ∈ bps')) ->
  instrument_from n bps lines = instrument_from n bps' lines.
Proof.
  revert n. induction lines as [|x lines IH]; intros n H; [reflexivity|].
  cbn [instrument_from]. cbn [length] in H. rewrite (IH (n + 1)).
  - destruct (decide (n ∈ bps)) as [Hin|Hout];
      destruct (decide (n ∈ bps')) as [Hin'|Hout']; try reflexivity;
      exfalso; [apply Hout' | apply Hout]; apply (H n); (lia || assumption).
  - intros i Hi. apply H. lia.
Qed.

Lemma instrument_from_none (n : Z) (bps : gset Z) (lines : list (list N)) :
  (forall i, n <= i < n + Z.of_nat (length lines) -> i ∉ bps) ->
  instrument_from n bps lines = lines.
Proof.
  revert n. induction lines as [|x lines IH]; intros n H; [reflexivity|].
  cbn [instrument_from]. cbn [length] in H. rewrite (IH (n + 1)).
  - rewrite decide_False; [reflexivity|]. apply H. lia.
  - intros i Hi. apply H. lia.
Qed.

(** Breakpoints that lie within a prefix of the lines do not touch what
    follows the prefix. *)
Lemma foldl_insert_prefix (bs : list Z) (pre suf : list (list N)) :
  Forall (fun b => b <= Z.of_nat (length pre)) bs ->
  foldl insert_breakpoint (pre ++ suf) bs
  = foldl insert_breakpoint pre bs ++ suf.
Proof.
  revert pre. induction bs as [|b bs IH]; intros pre H; [reflexivity|].
  inversion H as [|? ? Hb Hbs]; subst. cbn [foldl].
  assert (E : insert_breakpoint (pre ++ suf) b
              = insert_breakpoint pre b ++ suf).
  { unfold insert_breakpoint. rewrite length_app.
    destruct (0 <? b) eqn:Hpos; cbn [andb]; [|reflexivity].
    apply Z.ltb_lt in Hpos.
    rewrite (proj2 (Z.leb_le b (Z.of_nat (length pre)))) by exact Hb.
    rewrite (proj2 (Z.leb_le b _)) by lia.
    unfold insert_at.
    rewrite take_app_le, drop_app_le by lia.
    now rewrite <- app_assoc. }
  rewrite E. apply IH.
  eapply Forall_impl; [exact Hbs|]. intros b' Hb'. cbn beta in *.
  unfold insert_breakpoint.
  destruct ((0 <? b) && (b <=? Z.of_nat (length pre))); [|exact Hb'].
  unfold insert_at. rewrite length_app. cbn [length].
  rewrite length_take, length_drop. lia.
Qed.

(** The loop over the breakpoints in decreasing order puts a trace line
    before each line whose number is a breakpoint. *)
Lemma foldl_insert_instrument (bs : list Z) :
  StronglySorted Z.ge bs -> NoDup bs ->
  forall lines,
    foldl insert_breakpoint lines bs
    = instrument_from 1 (list_to_set bs) lines.
Proof.
  induction 1 as [|b bs Hsorted IH Hall]; intros Hnodup lines.
  - cbn. symmetry. apply instrument_from_none. intros i _.
    apply not_elem_of_empty.
  - apply NoDup_cons in Hnodup as [Hnotin Hnodup].
    assert (Hlt : Forall (fun b' => b' < b) bs).
    { apply Forall_forall. intros b' Hin.
      rewrite Forall_forall in Hall. specialize (Hall b' Hin).
      assert (b' <> b) by (intros ->; contradiction). lia. }
    cbn [foldl list_to_set]. unfold insert_breakpoint at 2.
    destruct ((0 <? b) && (b <=? Z.of_nat (length lines))) eqn:Hvalid.
    + apply andb_true_iff in Hvalid as [Hpos Hle].
      apply Z.ltb_lt in Hpos. apply Z.leb_le in Hle.
      unfold insert_at.
      set (k := Z.to_nat (b - 1)).
      assert (Hk : (k < length lines)%nat) by lia.
      rewrite foldl_insert_prefix.
      2:{ eapply Forall_impl; [exact Hlt|]. intros b' Hb'. cbn beta in *.
          rewrite length_take. lia. }
      rewrite (IH Hnodup).
      rewrite <- (take_drop k lines) at 3.
      rewrite instrument_from_app, length_take.
      rewrite (instrument_from_ext 1 ({[b]} ∪ list_to_set bs)
                 (list_to_set bs) (take k lines)).
      2:{ intros i Hi. rewrite length_take in Hi.
          split; [|intros Hin; apply elem_of_union; now right]. intros Hin.
          apply elem_of_union in Hin as [Hin|Hin]; [|exact Hin].
          apply elem_of_singleton in Hin. lia. }
      f_equal.
      destruct (drop k lines) as [|x rest] eqn:Hdrop.
      { apply (f_equal length) in Hdrop. rewrite length_drop in Hdrop.
        cbn in Hdrop. lia. }
      cbn [instrument_from].
      replace (1 + Z.of_nat (k `min` length lines)) with b by lia.
      rewrite decide_True by set_solver. cbn [app]. do 2 f_equal.
      symmetry. apply instrument_from_none. intros i Hi Hin.
      apply elem_of_union in Hin as [Hin|Hin].
      * apply elem_of_singleton in Hin. lia.
      * apply elem_of_list_to_set in Hin.
        rewrite Forall_forall in Hlt. specialize (Hlt i Hin). lia.
    + rewrite (IH Hnodup). symmetry.
      apply instrument_from_ext. intros i Hi.
      split; [|intros Hin; apply elem_of_union; now right]. intros Hin.
      apply elem_of_union in Hin as [Hin|Hin]; [|exact Hin].
      apply elem_of_singleton in Hin. subst i.
      apply andb_false_iff in Hvalid as [Hv|Hv];
        [apply Z.ltb_ge in Hv | apply Z.leb_gt in Hv]; lia.
Qed.

Lemma sorted_reverse_spec (bps : gset Z) :
  StronglySorted Z.ge (sorted_reverse bps)
  /\ NoDup (sorted_reverse bps)
  /\ list_to_set (sorted_reverse bps) = bps.
Proof.
  unfold sorted_reverse.
  assert (Hperm : merge_sort Z.ge (elements bps) ≡ₚ elements bps)
    by apply merge_sort_Permutation.
  split; [|split].
  - assert (Transitive Z.ge) by (intros x y z; lia).
    assert (Total Z.ge) by (intros x y; lia).
    apply (StronglySorted_merge_sort Z.ge).
  - rewrite Hperm. apply NoDup_elements.
  - rewrite Hperm. apply list_to_set_elements_L.
Qed.

Lemma code_with_bp_lines (bps : gset Z) (code : str) :
  code_with_bp bps code
  = join nl (instrument_from 1 bps (split 10 code)).
Proof.
  unfold code_with_bp.
  destruct (sorted_reverse_spec bps) as (Hs & Hn & Hset).
  now rewrite (foldl_insert_instrument _ Hs Hn), Hset.
Qed.

(** The text [debug_code] runs is the code with the trace line
    "import pdb; pdb.set_trace()" put on a line of its own before every
    line whose number (from 1) is a breakpoint; all lines of the code are
    kept, in order, and breakpoints outside the code have no effect. *)
Theorem code_with_bp_instrument (bps : gset Z) (code : str) :
  code_with_bp bps code
  = join nl (instrument_from 1 bps (split 10 code))
  /\ length (instrument_from 1 bps (split 10 code))
     = (length (split 10 code)
        + length (List.filter
                    (fun i => bool_decide (Z.of_nat (S i) ∈ bps))
                    (seq 0 (length (split 10 code)))))%nat.
Proof.
  split; [apply code_with_bp_lines|].
  generalize (split 10 code). intros lines.
  change 1 with (Z.of_nat (S 0)). generalize 0%nat.
  induction lines as [|x lines IH]; intros n; [reflexivity|].
  cbn [instrument_from length seq List.filter].
  replace (Z.of_nat (S n) + 1) with (Z.of_nat (S (S n))) by lia.
  rewrite length_app. cbn [length]. rewrite IH.
  destruct (decide (Z.of_nat (S n) ∈ bps)) as [Hin|Hout].
  - rewrite bool_decide_eq_true_2 by exact Hin. cbn [length]. lia.
  - rewrite bool_decide_eq_false_2 by exact Hout. cbn [length]. lia.
Qed.

(** With no breakpoint on a line of the code (none at all, or only
    numbers below 1 or beyond the last line) the text [debug_code] runs is
    the code itself, character for character. *)
Theorem code_with_bp_unchanged (bps : gset Z) (code : str) :
  (forall b, b ∈ bps -> b <= 0 \/ Z.of_nat (length (split 10 code)) < b) ->
  code_with_bp bps code = code.
Proof.
  intros H. rewrite code_with_bp_lines.
  rewrite instrument_from_none; [apply join_split|].
  intros i Hi Hin. destruct (H i Hin); lia.
Qed.

(** The theorem for a text of two lines and breakpoints at 0 and 7. *)
Lemma code_with_bp_unchanged_witness :
  code_with_bp {[ 0; 7 ]} (lit "x = 1" ++ nl ++ lit "y = 2")
  = lit "x = 1" ++ nl ++ lit "y = 2".
Proof.
  apply (code_with_bp_unchanged {[ 0; 7 ]}
           (lit "x = 1" ++ nl ++ lit "y = 2")).
  intros b Hb. apply elem_of_union in Hb as [Hb|Hb];
    apply elem_of_singleton in Hb; subst b; [left | right];
    vm_compute; congruence.
Defined.

(** *** Running *)

Section Run.

Variable world : Type.
Variable temporary_file : str -> world -> result (list N) * world.

Abbreviation run_code := (Debugger.run_code world temporary_file).
Abbreviation debug_code := (Debugger.debug_code world temporary_file).

(** Given the path of a file, [run_code] and [debug_code] write nothing
    and start [python3] on that file as it is on disk: the code they are
    given and the breakpoints play no part, so the file is run without
    trace lines and without what the editor holds beyond the file. *)
Theorem run_with_file_ignores_code
    (code code' : str) (path : str) (self : PythonDebugger)
    (bps : gset Z) (w : world) :
  run_code code (Some path) self w
  = ({| breakpoints := breakpoints self;
        process := Some (lit "python3", [path]) |},
     w,
     [started (lit "python3") [path];
      output_ready (lit "Running " ++ path ++ lit "...")])
  /\ debug_code code (Some path) self w
     = ({| breakpoints := breakpoints self;
           process := Some (lit "python3", [path]) |},
        w,
        [output_ready (lit "Debugging " ++ path ++ lit "...");
         started (lit "python3") [path];
         output_ready (lit "Running " ++ path ++ lit "...")])
  /\ snd (debug_code code (Some path) self w)
     = snd (debug_code code' (Some path)
              {| breakpoints := bps; process := process self |} w).
Proof. repeat split. Qed.

(** Without a path, [debug_code] writes one temporary file, holding the
    code with its trace lines, and starts [python3] on that file; when the
    file cannot be written it reports "Failed to debug:" with the text of
    the exception, starts nothing and keeps its process as it was. *)
Theorem debug_code_temporary_file
    (code : str) (self : PythonDebugger) (w : world) :
  match temporary_file (code_with_bp (breakpoints self) code) w with
  | (Ok path, w') =>
      debug_code code None self w
      = ({| breakpoints := breakpoints self;
            process := Some (lit "python3", [path]) |},
         w',
         [written path (code_with_bp (breakpoints self) code);
          output_ready (lit "Debugging " ++ path ++ lit "...");
          started (lit "python3") [path];
          output_ready (lit "Running " ++ path ++ lit "...")])
  | (Raise e, w') =>
      debug_code code None self w
      = (self, w',
         [error_occurred (lit "Failed to debug: " ++ exn_str e)])
  end.
Proof.
  unfold Debugger.debug_code.
  destruct (temporary_file _ w) as [[path|e] w']; reflexivity.
Qed.

End Run.

End DebuggerFacts.

(** ** main.py: LanguageDetector *)

Module LanguageFacts.
Import LanguageDetector.

(** An extension is listed by at most one language. *)
Lemma exts_disjoint (ext : str) (lang lang' : str) (i i' : info) :
  (lang, i) ∈ LANGUAGES -> (lang', i') ∈ LANGUAGES ->
  ext ∈ exts i -> ext ∈ exts i' -> lang = lang' /\ i = i'.
Proof.
  intros H H'. apply list_elem_of_In in H, H'.
  cbn [In LANGUAGES] in H, H'.
  repeat match goal with
         | H : _ \/ _ |- _ => destruct H as [H|H]
         | H : False |- _ => destruct H
         | H : (_, _) = (_, _) |- _ => injection H as <- <-
         end;
    cbn [exts]; intros He He'; try (split; reflexivity);
    exfalso; apply list_elem_of_In in He, He'; cbn [In] in He, He';
    repeat match goal with
           | H : _ \/ _ |- _ => destruct H as [H|H]
           | H : False |- _ => destruct H
           end;
    subst ext; vm_compute in He'; discriminate.
Qed.

Lemma detect_in_found (table : list (list N * info)) (ext : str) :
  (exists lang i, (lang, i) ∈ table /\ ext ∈ exts i
                  /\ detect_in table ext = lang)
  \/ ((forall lang i, (lang, i) ∈ table -> ext ∉ exts i)
      /\ detect_in table ext = lit "Text").
Proof.
  induction table as [|[lang i] table IH]; cbn [detect_in].
  - right. split; [|reflexivity]. intros lang i H.
    now apply elem_of_nil in H.
  - destruct (decide (ext ∈ exts i)) as [Hin|Hout].
    + left. exists lang, i. split; [apply elem_of_cons; now left|]. auto.
    + destruct IH as [(lang' & i' & H & He & Hd)|[Hnone Hd]].
      * left. exists lang', i'. split; [apply elem_of_cons; now right|].
        auto.
      * right. split; [|exact Hd]. intros lang' i' H.
        apply elem_of_cons in H as [H|H]; [|exact (Hnone lang' i' H)].
        injection H as -> ->. exact Hout.
Qed.

Lemma lexer_in_found (lang : str) (i : info) :
  (lang, i) ∈ LANGUAGES -> get_lexer_name lang = lexer i.
Proof.
  intros H. apply list_elem_of_In in H. cbn [In LANGUAGES] in H.
  repeat match goal with
         | H : _ \/ _ |- _ => destruct H as [H|H]
         | H : False |- _ => destruct H
         | H : (_, _) = (_, _) |- _ => injection H as <- <-
         end; vm_compute; reflexivity.
Qed.

Section Detect.

Variable lower_ext : str -> str.

(** [detect] answers with the one language of the table that lists the
    lower-cased extension of the file name, and with "Text" when none
    does; the lexer looked up for its answer is the lexer of that
    language, and "text" for "Text". *)
Theorem detect_table (filename : str) :
  (exists lang i,
     (lang, i) ∈ LANGUAGES
     /\ lower_ext filename ∈ exts i
     /\ detect lower_ext filename = lang
     /\ get_lexer_name (detect lower_ext filename) = lexer i
     /\ forall lang' i',
          (lang', i') ∈ LANGUAGES -> lower_ext filename ∈ exts i' ->
          lang' = lang)
  \/ ((forall lang i, (lang, i) ∈ LANGUAGES ->
                      lower_ext filename ∉ exts i)
      /\ detect lower_ext filename = lit "Text"
      /\ get_lexer_name (detect lower_ext filename) = lit "text").
Proof.
  unfold detect.
  destruct (detect_in_found LANGUAGES (lower_ext filename))
    as [(lang & i & H & He & Hd)|[Hnone Hd]].
  - left. exists lang, i. rewrite Hd. repeat split; auto.
    + now apply lexer_in_found.
    + intros lang' i' H' He'.
      now destruct (exts_disjoint _ _ _ _ _ H' H He' He).
  - right. rewrite Hd. repeat split; auto.
Qed.

End Detect.

End LanguageFacts.

(** ** app.py: opening files *)

Module ViewerFacts.
Import App Viewer ViewerSpec.

Lemma strip_nonspace_head (c : N) (s : str) :
  isspace c = false -> truthy (strip (c :: s)) = true.
Proof.
  intros Hc. destruct (strip (c :: s)) as [|d t] eqn:E; [|reflexivity].
  apply PromptFacts.strip_nil_blank in E. inversion E; congruence.
Qed.

Lemma find_tab_some (path : str) (tabs : list tab) (i j : nat) :
  find_tab path tabs i = Some j ->
  exists t, tabs !! (j - i)%nat = Some t /\ tabToolTip t = path
            /\ (i <= j)%nat.
Proof.
  revert i. induction tabs as [|t tabs IH]; intros i; [discriminate|].
  cbn [find_tab]. destruct (decide (tabToolTip t = path)) as [E|_].
  - intros H. injection H as <-. exists t. rewrite Nat.sub_diag. auto.
  - intros H. destruct (IH _ H) as (t' & Hl & Ht & Hle).
    exists t'. replace (j - i)%nat with (S (j - S i)) by lia.
    repeat split; auto. lia.
Qed.

Lemma find_tab_none (path : str) (tabs : list tab) (i : nat) :
  find_tab path tabs i = None -> path ∉ List.map tabToolTip tabs.
Proof.
  revert i. induction tabs as [|t tabs IH]; intros i.
  - intros _ H. now apply elem_of_nil in H.
  - cbn [find_tab List.map].
    destruct (decide (tabToolTip t = path)) as [E|Hne]; [discriminate|].
    intros H Hin. apply elem_of_cons in Hin as [Hin|Hin]; [congruence|].
    exact (IH _ H Hin).
Qed.

Section Load.

Variable basename : str -> str.

Abbreviation load_to_viewer := (Viewer.load_to_viewer basename).

(** After a document is loaded the window is in "edu" mode and the
    content [run_ai] works on is the line "--- DOCUMENT: name ---", an
    empty line and the text of the document.  That content is never
    blank, so [run_ai] never answers with the "Empty" warning, not even
    for a document without any text. *)
Theorem load_document_never_empty
    (settings environ : gmap (list N) (list N))
    (path content : str) (self : Workbench) :
  current_mode (suite (load_to_viewer path content true self)) = lit "edu"
  /\ AppSpec.content_of (suite (load_to_viewer path content true self))
     = Some (lit "--- DOCUMENT: " ++ basename path ++ lit " ---" ++ nl
               ++ nl ++ content)
  /\ ~ blank (lit "--- DOCUMENT: " ++ basename path ++ lit " ---" ++ nl
                ++ nl ++ content)
  /\ run_ai settings environ (suite (load_to_viewer path content true self))
     <> Ok (suite (load_to_viewer path content true self),
            [AppSpec.empty_warning])
  /\ code_tabs (load_to_viewer path content true self) = code_tabs self.
Proof.
  set (doc := lit "--- DOCUMENT: " ++ basename path ++ lit " ---" ++ nl
                ++ nl ++ content).
  assert (Hs : truthy (strip doc) = true)
    by (apply strip_nonspace_head; reflexivity).
  split; [reflexivity|]. split; [reflexivity|]. split; [|split].
  - intros Hb. rewrite (strip_blank _ Hb) in Hs. discriminate.
  - unfold run_ai, Viewer.load_to_viewer.
    cbn [suite switch_mode set_mode set_doc_viewer current_mode doc_viewer].
    rewrite decide_False by StudioFacts.by_computation.
    cbn [rbind]. fold doc. rewrite Hs. cbn [negb].
    unfold getitem.
    destruct (MODELS_CONFIG !! _); cbn [rbind]; [|discriminate].
    destruct (negb _); discriminate.
  - reflexivity.
Qed.

(** Loading a code file puts the window in "code" mode and makes a tab
    of that path the current one, whose text is what [run_ai] will work
    on.  A file that is already open gets no second tab and its tab keeps
    its text (the file is not read in again); a new file gets one tab, at
    the end, holding its content.  The tabs that were there stay as they
    are, and no path is ever open twice. *)
Theorem load_code_file (path content : str) (self : Workbench) :
  NoDup (open_paths self) ->
  let self' := load_to_viewer path content false self in
  current_mode (suite self') = lit "code"
  /\ (exists t,
        code_tabs self' !! currentIndex self' = Some t
        /\ tabToolTip t = path
        /\ AppSpec.content_of (suite self') = Some (text t))
  /\ NoDup (open_paths self')
  /\ (if decide (path ∈ open_paths self)
      then code_tabs self' = code_tabs self
      else code_tabs self'
           = code_tabs self
               ++ [{| tabText := basename path; text := content;
                      tabToolTip := path |}]).
Proof.
  intros Hnd self'. subst self'. unfold Viewer.load_to_viewer.
  cbn [switch_mode code_tabs].
  destruct (find_tab path (code_tabs self) 0) as [i|] eqn:Hf.
  - destruct (find_tab_some _ _ _ _ Hf) as (t & Hl & Ht & _).
    rewrite Nat.sub_0_r in Hl.
    split; [reflexivity|]. split; [|split].
    + exists t. cbn [setCurrentIndex code_tabs currentIndex suite].
      split; [exact Hl|]. split; [exact Ht|].
      unfold AppSpec.content_of.
      cbn [set_currentWidget set_mode current_mode code_tabs_currentWidget].
      rewrite decide_True by reflexivity.
      cbn [switch_mode code_tabs]. now rewrite Hl.
    + exact Hnd.
    + rewrite decide_True; [reflexivity|].
      unfold open_paths. apply list_elem_of_In, in_map_iff.
      exists t. split; [exact Ht|].
      apply list_elem_of_In. eapply list_elem_of_lookup_2. exact Hl.
  - apply find_tab_none in Hf.
    assert (Htip : (if truthy path then path else []) = path).
    { destruct path; reflexivity. }
    unfold add_code_tab. rewrite Htip.
    cbn [setCurrentIndex code_tabs currentIndex suite].
    assert (Hlast : (code_tabs self
                       ++ [{| tabText := basename path; text := content;
                              tabToolTip := path |}])
                      !! (length (code_tabs self
                                    ++ [{| tabText := basename path;
                                           text := content;
                                           tabToolTip := path |}]) - 1)%nat
                    = Some {| tabText := basename path; text := content;
                              tabToolTip := path |}).
    { rewrite length_app. cbn [length].
      replace (length (code_tabs self) + 1 - 1)%nat
        with (length (code_tabs self)) by lia.
      now apply list_lookup_middle. }
    split; [reflexivity|]. split; [|split].
    + eexists. split; [exact Hlast|]. split; [reflexivity|].
      unfold AppSpec.content_of.
      cbn [set_currentWidget set_mode current_mode code_tabs_currentWidget].
      rewrite decide_True by reflexivity.
      cbn [switch_mode code_tabs suite]. now rewrite Hlast.
    + unfold open_paths in *. cbn [code_tabs switch_mode setCurrentIndex].
      rewrite List.map_app. cbn [List.map tabToolTip].
      apply NoDup_app. split; [exact Hnd|]. split.
      * intros x Hx Hx'. apply list_elem_of_singleton in Hx'. subst x.
        exact (Hf Hx).
      * apply NoDup_singleton.
    + rewrite decide_False by exact Hf. reflexivity.
Qed.

End Load.

(** [load_code_file] for a first file opened after start-up. *)
Lemma load_code_file_witness :
  code_tabs (Viewer.load_to_viewer last_part (lit "/src/a.py")
               (lit "x = 1") false start_up)
  = [{| tabText := lit "a.py"; text := lit "x = 1";
        tabToolTip := lit "/src/a.py" |}].
Proof.
  destruct (load_code_file last_part (lit "/src/a.py") (lit "x = 1")
              start_up (NoDup_nil_2)) as (_ & _ & _ & H).
  rewrite decide_False in H by (apply not_elem_of_nil).
  exact H.
Defined.

End ViewerFacts.

(** ** main.py: the Git panel *)

Module GitPanelFacts.
Import Git GitSpec GitSpec2 GitPanel GitPanelSpec.

(** The slots of the manager's signals write the status list and the
    console only. *)
Lemma foldl_handle_keeps (es : list event) (self : Panel) :
  current_repo_path (foldl handle self es) = current_repo_path self
  /\ git_manager (foldl handle self es) = git_manager self
  /\ git_commit_input (foldl handle self es) = git_commit_input self
  /\ git_branch_label (foldl handle self es) = git_branch_label self
  /\ git_status_label (foldl handle self es) = git_status_label self
  /\ git_log_text (foldl handle self es) = git_log_text self.
Proof.
  revert self. induction es as [|e es IH]; intros self; [repeat split|].
  cbn [foldl]. destruct (IH (handle self e)) as (-> & -> & -> & -> & -> & ->).
  destruct e; repeat split.
Qed.

(** Without a published status the list stays as it is. *)
Lemma foldl_handle_list (es : list event) (self : Panel) :
  published es = [] ->
  git_status_list (foldl handle self es) = git_status_list self.
Proof.
  revert self. induction es as [|e es IH]; intros self H; [reflexivity|].
  cbn [foldl]. destruct e; cbn in H; try discriminate;
    rewrite (IH _ H); reflexivity.
Qed.

Lemma published_reported (r : run_outcome) : published (reported r) = [].
Proof.
  destruct r as [rc out err|msg]; cbn; [destruct (rc =? 0)%Z|]; reflexivity.
Qed.

Lemma spawned_reported (r : run_outcome) : spawned (reported r) = [].
Proof.
  destruct r as [rc out err|msg]; cbn; [destruct (rc =? 0)%Z|]; reflexivity.
Qed.

Section Panel.

Variable world : Type.
Variable subprocess_run :
  list (list N) -> list N -> Z -> world -> run_outcome * world.

Abbreviation git_refresh := (GitPanel.git_refresh world subprocess_run).
Abbreviation git_add_all := (GitPanel.git_add_all world subprocess_run).
Abbreviation git_commit := (GitPanel.git_commit world subprocess_run).
Abbreviation git_push := (GitPanel.git_push world subprocess_run).
Abbreviation git_pull := (GitPanel.git_pull world subprocess_run).
Abbreviation select_folder := (GitPanel.select_folder world subprocess_run).

Lemma call_keeps {A} (m : M world A) (self : Panel) (w : world) :
  current_repo_path (snd (fst (fst (GitPanel.call world m self w))))
  = current_repo_path self
  /\ git_manager (snd (fst (fst (GitPanel.call world m self w)))) = git_manager self.
Proof.
  unfold GitPanel.call. destruct (m (w, [])) as [a [w' es]]. cbn [fst snd].
  destruct (foldl_handle_keeps es self) as (H1 & H2 & _). auto.
Qed.

Lemma git_refresh_keeps (self : Panel) (w : world) :
  current_repo_path (fst (fst (git_refresh self w)))
  = current_repo_path self
  /\ git_manager (fst (fst (git_refresh self w))) = git_manager self.
Proof.
  unfold GitPanel.git_refresh.
  destruct (negb _); [auto|].
  repeat match goal with
         | |- context [GitPanel.call _ ?m ?p ?w] =>
             let H := fresh "H" in
             pose proof (call_keeps m p w) as H;
             destruct (GitPanel.call world m p w) as [[[? ?] ?] ?];
             cbn [fst snd] in H
         end.
  cbn [fst snd set_log_text set_labels current_repo_path git_manager] in *.
  destruct H as [? ?], H0 as [? ?], H1 as [? ?]. split; congruence.
Qed.

(** The window and its manager always agree on the repository: they do
    at start-up, and selecting a folder (or cancelling the dialog),
    refreshing, staging, committing, pushing and pulling keep it so. *)
Theorem panel_and_manager_agree (self : Panel) (w : world) :
  coherent self ->
  coherent init
  /\ (forall folder, coherent (fst (fst (select_folder folder self w))))
  /\ coherent (fst (fst (git_refresh self w)))
  /\ coherent (fst (fst (git_add_all self w)))
  /\ coherent (fst (fst (fst (git_commit self w))))
  /\ coherent (fst (fst (git_push self w)))
  /\ coherent (fst (fst (git_pull self w))).
Proof.
  unfold coherent. intros H. split; [reflexivity|].
  repeat split.
  - intros folder. unfold GitPanel.select_folder.
    destruct (truthy folder); [|exact H].
    destruct (git_refresh_keeps (set_folder folder self) w) as [-> ->].
    reflexivity.
  - destruct (git_refresh_keeps self w) as [-> ->]. exact H.
  - unfold GitPanel.git_add_all.
    match goal with
    | |- context [GitPanel.call _ ?m ?p ?w] =>
        pose proof (call_keeps m p w) as Hc;
        destruct (GitPanel.call world m p w) as [[[? ?] ?] ?]
    end. cbn [fst snd] in *. destruct Hc as [-> ->]. exact H.
  - unfold GitPanel.git_commit.
    destruct (negb _); [exact H|].
    match goal with
    | |- context [GitPanel.call _ ?m ?p ?w] =>
        pose proof (call_keeps m p w) as Hc;
        destruct (GitPanel.call world m p w) as [[[? ?] ?] ?]
    end. cbn [fst snd set_commit_input current_repo_path git_manager] in *.
    destruct Hc as [-> ->]. exact H.
  - unfold GitPanel.git_push.
    match goal with
    | |- context [GitPanel.call _ ?m ?p ?w] =>
        pose proof (call_keeps m p w) as Hc;
        destruct (GitPanel.call world m p w) as [[[? ?] ?] ?]
    end. cbn [fst snd] in *. destruct Hc as [-> ->]. exact H.
  - unfold GitPanel.git_pull.
    match goal with
    | |- context [GitPanel.call _ ?m ?p ?w] =>
        pose proof (call_keeps m p w) as Hc;
        destruct (GitPanel.call world m p w) as [[[? ?] ?] ?]
    end. cbn [fst snd] in *. destruct Hc as [-> ->]. exact H.
Qed.

(** [get_status] in a repository, in full. *)
Lemma get_status_exact (mgr : GitManager) (w : world) (log : list event) :
  truthy_opt (repo_path mgr) = true ->
  Git.get_status world subprocess_run mgr (w, log)
  = match succeeded (Some (fst (subprocess_run (lit "git" :: status_args)
                                  (default [] (repo_path mgr)) 30 w))) with
    | Some stdout =>
        (foldl get_status_line empty_status (split 10 (strip stdout)),
         (snd (subprocess_run (lit "git" :: status_args)
                 (default [] (repo_path mgr)) 30 w),
          log ++ [spawn (lit "git" :: status_args)
                    (default [] (repo_path mgr)) 30;
                  status_updated
                    (foldl get_status_line empty_status
                       (split 10 (strip stdout)))]))
    | None =>
        (∅,
         (snd (subprocess_run (lit "git" :: status_args)
                 (default [] (repo_path mgr)) 30 w),
          log ++ spawn (lit "git" :: status_args)
                   (default [] (repo_path mgr)) 30
              :: reported (fst (subprocess_run (lit "git" :: status_args)
                                  (default [] (repo_path mgr)) 30 w))))
    end.
Proof.
  intros H. rewrite GitFacts.get_status_unfold.
  rewrite (GitMore.run_git_command_exact world subprocess_run mgr
             status_args w log H).
  rewrite (GitMore.command_outcome_root world subprocess_run mgr
             status_args w H).
  pose proof (GitMore.reported_cases
                (fst (subprocess_run (lit "git" :: status_args)
                        (default [] (repo_path mgr)) 30 w))) as Hr.
  destruct (succeeded _) as [stdout|]; [|reflexivity].
  rewrite Hr. cbn zeta. now rewrite <- app_assoc.
Qed.

(** [git_refresh] in a repository, in full: the three calls, each
    followed by the slots of its signals. *)
Lemma git_refresh_exact (self : Panel) (w : world) :
  coherent self ->
  truthy_opt (current_repo_path self) = true ->
  exists r1 s2 r3,
    r1 = subprocess_run (lit "git" :: branch_args)
           (default [] (current_repo_path self)) 30 w
    /\ s2 = Git.get_status world subprocess_run (git_manager self)
              (snd r1, [])
    /\ r3 = subprocess_run
              [lit "git"; lit "log"; lit "-" ++ str_of_int 10;
               lit "--oneline"]
              (default [] (current_repo_path self)) 30 (fst (snd s2))
    /\ git_refresh self w
       = (set_log_text
            (match succeeded (Some (fst r3)) with
             | Some stdout => stdout
             | None => []
             end)
            (foldl handle
               (foldl handle
                  (set_labels
                     (fst (Git.get_branch world subprocess_run
                             (git_manager self) (w, [])))
                     (foldl handle self
                        (spawn (lit "git" :: branch_args)
                           (default [] (current_repo_path self)) 30
                         :: reported (fst r1))))
                  (snd (snd s2)))
               (spawn [lit "git"; lit "log"; lit "-" ++ str_of_int 10;
                       lit "--oneline"]
                  (default [] (current_repo_path self)) 30
                :: reported (fst r3))),
          snd r3,
          (spawn (lit "git" :: branch_args)
             (default [] (current_repo_path self)) 30 :: reported (fst r1))
          ++ snd (snd s2)
          ++ spawn [lit "git"; lit "log"; lit "-" ++ str_of_int 10;
                    lit "--oneline"]
               (default [] (current_repo_path self)) 30
             :: reported (fst r3)).
Proof.
  intros Hco Ht. unfold coherent in Hco.
  assert (Hm : truthy_opt (repo_path (git_manager self)) = true)
    by now rewrite <- Hco.
  eexists _, _, _. split; [reflexivity|]. split; [reflexivity|].
  split; [reflexivity|].
  unfold GitPanel.git_refresh. rewrite Ht. cbn [negb]. unfold GitPanel.call.
  destruct (Git.get_branch world subprocess_run (git_manager self) (w, []))
    as [b [w1 es1]] eqn:Eb.
  rewrite GitFacts.get_branch_unfold in Eb.
  rewrite (GitMore.run_git_command_exact world subprocess_run _ _ _ _ Hm)
    in Eb.
  cbn [fst snd app] in Eb. rewrite <- Hco in Eb.
  injection Eb as _ <- <-. cbn [fst snd].
  set (p1 := set_labels _ _).
  assert (Hp1 : git_manager p1 = git_manager self).
  { unfold p1. cbn [set_labels git_manager].
    now destruct (foldl_handle_keeps
                    (spawn (lit "git" :: branch_args)
                       (default [] (current_repo_path self)) 30
                     :: reported
                          (fst (subprocess_run (lit "git" :: branch_args)
                                  (default [] (current_repo_path self))
                                  30 w))) self) as (_ & -> & _). }
  rewrite Hp1.
  destruct (Git.get_status world subprocess_run (git_manager self) _)
    as [st [w2 es2]]. cbn [fst snd].
  assert (Hp2 : git_manager (foldl handle p1 es2) = git_manager self).
  { destruct (foldl_handle_keeps es2 p1) as (_ & -> & _). exact Hp1. }
  rewrite Hp2. unfold Git.get_log, bind, ret.
  rewrite (GitMore.run_git_command_exact world subprocess_run _ _ _ _ Hm).
  rewrite (GitMore.command_outcome_root world subprocess_run _ _ _ Hm).
  cbn [fst snd app]. rewrite <- Hco.
  match goal with
  | |- context [succeeded ?o] => destruct (succeeded o) as [stdout|]
  end; cbn [truthy_opt default]; [destruct stdout|]; reflexivity.
Qed.

Lemma spawned_app (es es' : list event) :
  spawned (es ++ es') = spawned es ++ spawned es'.
Proof. apply List.filter_app. Qed.

Lemma spawned_cons (argv : list (list N)) (cwd : str) (timeout : Z)
    (es : list event) :
  spawned (spawn argv cwd timeout :: es)
  = spawn argv cwd timeout :: spawned es.
Proof. reflexivity. Qed.

(** Without a repository [git_refresh] does nothing at all.  With one it
    runs three commands there, in this order: the branch command, the
    status command and [git log -10 --oneline]; it goes on when one of
    them fails, and the two labels show what [get_branch] returned, which
    is "unknown" after a failure. *)
Theorem git_refresh_commands (self : Panel) (w : world) :
  coherent self ->
  if truthy_opt (current_repo_path self) then
    spawned (snd (git_refresh self w))
    = [spawn (lit "git" :: branch_args)
         (default [] (current_repo_path self)) 30;
       spawn (lit "git" :: status_args)
         (default [] (current_repo_path self)) 30;
       spawn [lit "git"; lit "log"; lit "-10"; lit "--oneline"]
         (default [] (current_repo_path self)) 30]
    /\ git_branch_label (fst (fst (git_refresh self w)))
       = lit "Branch: "
           ++ fst (Git.get_branch world subprocess_run (git_manager self)
                     (w, []))
    /\ git_status_label (fst (fst (git_refresh self w)))
       = lit "Git: "
           ++ fst (Git.get_branch world subprocess_run (git_manager self)
                     (w, []))
  else git_refresh self w = (self, w, []).
Proof.
  intros Hco. destruct (truthy_opt (current_repo_path self)) eqn:Ht.
  - destruct (git_refresh_exact self w Hco Ht)
      as (r1 & s2 & r3 & E1 & E2 & E3 & ->).
    assert (Hm : truthy_opt (repo_path (git_manager self)) = true)
      by (unfold coherent in Hco; now rewrite <- Hco).
    cbn [fst snd]. split; [|split].
    + rewrite (get_status_exact _ _ _ Hm) in E2.
      rewrite spawned_app, spawned_app.
      rewrite !spawned_cons, !spawned_reported.
      assert (Hs2 : spawned (snd (snd s2))
                    = [spawn (lit "git" :: status_args)
                         (default [] (current_repo_path self)) 30]).
      { subst s2. unfold coherent in Hco. rewrite <- Hco.
        match goal with
        | |- context [succeeded ?o] => destruct (succeeded o)
        end; cbn [snd app]; rewrite spawned_cons; [reflexivity|].
        now rewrite spawned_reported. }
      rewrite Hs2. reflexivity.
    + cbn [set_log_text git_branch_label].
      destruct (foldl_handle_keeps
                  (spawn [lit "git"; lit "log"; lit "-" ++ str_of_int 10;
                          lit "--oneline"]
                     (default [] (current_repo_path self)) 30
                   :: reported (fst r3))
                  (foldl handle
                     (set_labels
                        (fst (Git.get_branch world subprocess_run
                                (git_manager self) (w, [])))
                        (foldl handle self
                           (spawn (lit "git" :: branch_args)
                              (default [] (current_repo_path self)) 30
                            :: reported (fst r1))))
                     (snd (snd s2)))) as (_ & _ & _ & -> & _).
      destruct (foldl_handle_keeps (snd (snd s2))
                  (set_labels
                     (fst (Git.get_branch world subprocess_run
                             (git_manager self) (w, [])))
                     (foldl handle self
                        (spawn (lit "git" :: branch_args)
                           (default [] (current_repo_path self)) 30
                         :: reported (fst r1)))))
        as (_ & _ & _ & -> & _).
      reflexivity.
    + cbn [set_log_text git_status_label].
      destruct (foldl_handle_keeps
                  (spawn [lit "git"; lit "log"; lit "-" ++ str_of_int 10;
                          lit "--oneline"]
                     (default [] (current_repo_path self)) 30
                   :: reported (fst r3))
                  (foldl handle
                     (set_labels
                        (fst (Git.get_branch world subprocess_run
                                (git_manager self) (w, [])))
                        (foldl handle self
                           (spawn (lit "git" :: branch_args)
                              (default [] (current_repo_path self)) 30
                            :: reported (fst r1))))
                     (snd (snd s2)))) as (_ & _ & _ & _ & -> & _).
      destruct (foldl_handle_keeps (snd (snd s2))
                  (set_labels
                     (fst (Git.get_branch world subprocess_run
                             (git_manager self) (w, [])))
                     (foldl handle self
                        (spawn (lit "git" :: branch_args)
                           (default [] (current_repo_path self)) 30
                         :: reported (fst r1)))))
        as (_ & _ & _ & _ & -> & _).
      reflexivity.
  - unfold GitPanel.git_refresh. now rewrite Ht.
Qed.

Lemma status_items_display (lines : list (list N)) :
  status_items (foldl get_status_line empty_status lines) = display lines.
Proof.
  unfold status_items, display, get_paths.
  rewrite !StatusFacts.foldl_get_status_line.
  replace (empty_status !! lit "modified") with (Some (@nil (list N)))
    by (vm_compute; reflexivity).
  replace (empty_status !! lit "added") with (Some (@nil (list N)))
    by (vm_compute; reflexivity).
  replace (empty_status !! lit "deleted") with (Some (@nil (list N)))
    by (vm_compute; reflexivity).
  replace (empty_status !! lit "untracked") with (Some (@nil (list N)))
    by (vm_compute; reflexivity).
  cbn [fmap option_fmap option_map default from_option id app].
  now rewrite !List.map_map.
Qed.

(** After a refresh in a repository the status list shows, when the
    status command succeeded, the paths of its output grouped as
    modified ("M  "), added ("A  "), deleted ("D  ") and untracked
    ("?? "); when the status command failed, the list still shows what it
    showed before. *)
Theorem git_refresh_status_list (self : Panel) (w : world) :
  coherent self ->
  truthy_opt (current_repo_path self) = true ->
  match succeeded
          (Some (fst (subprocess_run (lit "git" :: status_args)
                        (default [] (current_repo_path self)) 30
                        (snd (subprocess_run (lit "git" :: branch_args)
                                (default [] (current_repo_path self))
                                30 w))))) with
  | Some stdout =>
      git_status_list (fst (fst (git_refresh self w)))
      = display (split 10 (strip stdout))
  | None =>
      git_status_list (fst (fst (git_refresh self w)))
      = git_status_list self
  end.
Proof.
  intros Hco Ht.
  destruct (git_refresh_exact self w Hco Ht)
    as (r1 & s2 & r3 & E1 & E2 & E3 & ->).
  assert (Hm : truthy_opt (repo_path (git_manager self)) = true)
    by (unfold coherent in Hco; now rewrite <- Hco).
  rewrite (get_status_exact _ _ _ Hm) in E2.
  unfold coherent in Hco. rewrite <- Hco in E2. rewrite <- E1.
  cbn [fst snd set_log_text git_status_list].
  rewrite foldl_handle_list
    by (cbn [published List.filter is_status_updated];
        apply published_reported).
  subst s2.
  destruct (succeeded _) as [stdout|]; cbn [snd app foldl handle].
  - cbn [update_git_status git_status_list]. apply status_items_display.
  - rewrite foldl_handle_list by apply published_reported.
    cbn [set_labels git_status_list].
    rewrite foldl_handle_list
      by (cbn [published List.filter is_status_updated];
          apply published_reported).
    reflexivity.
Qed.

(** [git_commit] with a blank message shows the warning and does nothing
    else.  With any other message it commits the message stripped of
    surrounding white space and then clears the input, whether the commit
    succeeded or not. *)
Theorem git_commit_clears_input (self : Panel) (w : world) :
  if truthy (strip (git_commit_input self)) then
    git_commit_input (fst (fst (fst (git_commit self w)))) = []
    /\ snd (git_commit self w) = false
    /\ snd (fst (git_commit self w))
       = snd (snd (Git.commit world subprocess_run (git_manager self)
                     (strip (git_commit_input self)) (w, [])))
  else git_commit self w = (self, w, [], true).
Proof.
  unfold GitPanel.git_commit, GitPanel.call.
  destruct (truthy (strip (git_commit_input self))); cbn [negb];
    [|reflexivity].
  destruct (Git.commit world subprocess_run _ _ _) as [u [w' es]].
  repeat split.
Qed.

End Panel.

(** [panel_and_manager_agree] from start-up, selecting "/repo". *)
Lemma panel_and_manager_agree_witness :
  coherent (fst (fst (GitPanel.select_folder unit
                        (always (Completed 0 (lit "main" ++ nl) []))
                        (lit "/repo") init tt))).
Proof.
  destruct (panel_and_manager_agree unit
              (always (Completed 0 (lit "main" ++ nl) [])) init tt
              eq_refl) as (_ & H & _).
  exact (H (lit "/repo")).
Defined.

(** [git_refresh_commands] where every command prints "main". *)
Lemma git_refresh_commands_witness :
  spawned (snd (GitPanel.git_refresh unit
                  (always (Completed 0 (lit "main" ++ nl) []))
                  (in_repo []) tt))
  = [spawn (lit "git" :: branch_args) (lit "/repo") 30;
     spawn (lit "git" :: status_args) (lit "/repo") 30;
     spawn [lit "git"; lit "log"; lit "-10"; lit "--oneline"]
       (lit "/repo") 30]
  /\ git_branch_label
       (fst (fst (GitPanel.git_refresh unit
                    (always (Completed 0 (lit "main" ++ nl) []))
                    (in_repo []) tt)))
     = lit "Branch: main".
Proof.
  destruct (git_refresh_commands unit
              (always (Completed 0 (lit "main" ++ nl) []))
              (in_repo []) tt eq_refl) as (H1 & H2 & _).
  split; [exact H1|]. rewrite H2. vm_compute. reflexivity.
Defined.

(** [git_refresh_status_list] where every command fails: the list keeps
    its old item. *)
Lemma git_refresh_status_list_witness :
  git_status_list
    (fst (fst (GitPanel.git_refresh unit
                 (always (Completed 1 [] (lit "fatal")))
                 (in_repo []) tt)))
  = [lit "?? old.txt"].
Proof.
  exact (git_refresh_status_list unit
           (always (Completed 1 [] (lit "fatal")))
           (in_repo []) tt eq_refl eq_refl).
Defined.

End GitPanelFacts.
